(** * Browser agent connection lifecycle: a shallow embedding

    The development follows three source files:
    - [packages/core/src/utils/net.ts]   ([getFreePort]),
    - the browser manager                ([BrowserManager] and its methods),
    - the browser tools                  ([pressKey], [keyCombination]).

    The code is asynchronous TypeScript.  Every [async] method is embedded as
    a computation in a state-and-exception monad [M]: the state carries the
    manager's private fields, the state of the outside world and the log of
    calls made to outside collaborators; an exception is a rejected promise.
    A field assignment made before a [throw] stays in the state, as in
    JavaScript.  Calls are modelled as awaited one after the other; two calls
    interleaving across an [await] are outside this model.

    The collaborators that are not part of the repository (node's [net]
    module, the Playwright driver, the MCP client manager and its clients) are
    parameters, bundled in the class [Platform].  Each of them owns a part of
    the world and can answer or fail arbitrarily. *)

From Stdlib Require Import String List NArith Bool Arith Lia.
From Stdlib Require Import DecimalString DecimalN.
Import ListNotations.

Set Implicit Arguments.
Open Scope string_scope.

(** ** Exceptions and promise outcomes *)

(** A thrown value: [new Error(message)], or an error object handed over by a
    collaborator. *)
Inductive exn : Type :=
| Error (message : string).

(** How an awaited promise settles. *)
Inductive outcome (A : Type) : Type :=
| Resolved (value : A)
| Rejected (reason : exn).

Arguments Resolved {A} value.
Arguments Rejected {A} reason.

(** What [server.address()] returns: [AddressInfo | string | null].  Only the
    [port] field of an [AddressInfo] is read by the code. *)
Inductive Address : Type :=
| AddrNull
| AddrPipe (path : string)
| AddrInfo (port : N).

(** ** The outside world *)

Class Platform : Type := {
  (* node:net *)
  OsW : Type;
  (* [server.listen(port, cb)]: [Some e] when the server emits ['error'] with
     [e], [None] when the listening callback runs. *)
  net_listen : N -> OsW -> option exn * OsW;
  net_address : OsW -> Address;
  net_close : OsW -> OsW;

  (* playwright *)
  DrvW : Type;
  Browser : Type;
  BrowserContext : Type;
  Page : Type;
  chromium_launch : bool -> list string -> DrvW -> outcome Browser * DrvW;
  browser_isConnected : Browser -> DrvW -> bool;
  browser_newContext : Browser -> DrvW -> outcome BrowserContext * DrvW;
  context_newPage : BrowserContext -> DrvW -> outcome Page * DrvW;
  (* [context.browser()] and [page.context()]: what an object was made from *)
  context_browser : BrowserContext -> Browser;
  page_context : Page -> BrowserContext;

  (* MCP client manager and clients *)
  McpW : Type;
  McpClient : Type;
  McpClientManager : Type;
  CallToolResult : Type;
  manager_getClient : McpClientManager -> string -> McpW -> option McpClient;
  manager_maybeDiscoverMcpServer :
    McpClientManager -> string -> string -> list string -> McpW ->
    outcome unit * McpW;
  client_getStatus : McpClient -> McpW -> string;
  client_connect : McpClient -> McpW -> outcome unit * McpW;
  client_callTool :
    McpClient -> string -> list (string * string) -> McpW ->
    outcome CallToolResult * McpW
}.

(** ** JavaScript conversions used by the code *)

(** [`${n}`] for a non-negative integer [n]: its decimal digits. *)
Definition Number_toString (n : N) : string :=
  NilEmpty.string_of_uint (N.to_uint n).

(** [if (n)] on a number: [0] is falsy. *)
Definition truthy (n : N) : bool := negb (N.eqb n 0).

(** [ToolResult] of the browser tools. *)
Record ToolResult : Type := mkToolResult {
  output : option string;
  error : option string;
  url : option string
}.

Section Model.

Context {P : Platform}.

(** ** State *)

(** Modelled from the spec: the settings object of the configuration, whose
    declaration is not among the sources.  The manager reads one optional
    field of it, the headless mode. *)
Record BrowserAgentSettings : Type := { headless : option bool }.

(** Modelled from the spec: the configuration object, whose declaration is
    not among the sources.  The manager reads [config.browserAgentSettings],
    which may be missing, and calls [config.getMcpClientManager()], which
    may return [undefined]. *)
Record Config : Type := {
  browserAgentSettings : option BrowserAgentSettings;
  getMcpClientManager : option McpClientManager
}.

(** The private fields of [class BrowserManager]; [None] is [undefined]. *)
Record BrowserManager : Type := mkBrowserManager {
  config : Config;
  mcpClient : option McpClient;
  browser : option Browser;
  page : option Page;
  remoteDebuggingPort : option N
}.

Record World : Type := mkWorld {
  os : OsW;
  drv : DrvW;
  mcp : McpW
}.

(** One entry per call that leaves the manager. *)
Inductive event : Type :=
| EvLog (message : string)
| EvCreateServer
| EvListen (port : N)
| EvAddress
| EvClose
| EvLaunch (headless : bool) (args : list string)
| EvIsConnected (b : Browser)
| EvNewContext (b : Browser)
| EvNewPage (c : BrowserContext)
| EvGetClient (name : string)
| EvMaybeDiscoverMcpServer (name : string) (command : string)
                           (args : list string)
| EvGetStatus (c : McpClient)
| EvConnect (c : McpClient)
| EvCallTool (c : McpClient) (tool : string) (args : list (string * string)).

Record State : Type := mkState {
  self : BrowserManager;
  world : World;
  trace : list event
}.

(** A manager right after [new BrowserManager(config)]. *)
Definition new_BrowserManager (c : Config) : BrowserManager :=
  mkBrowserManager c None None None None.

Definition fresh (c : Config) (w : World) : State :=
  mkState (new_BrowserManager c) w [].

(** ** The monad *)

Definition M (A : Type) : Type := State -> outcome A * State.

Definition ret {A} (a : A) : M A := fun st => (Resolved a, st).

Definition throw {A} (e : exn) : M A := fun st => (Rejected e, st).

Definition bind {A B} (m : M A) (k : A -> M B) : M B :=
  fun st =>
    match m st with
    | (Resolved a, st') => k a st'
    | (Rejected e, st') => (Rejected e, st')
    end.

Definition emit (ev : event) : M unit :=
  fun st => (Resolved tt, mkState (self st) (world st) (trace st ++ [ev])).

Definition this : M BrowserManager := fun st => (Resolved (self st), st).

Definition assign (f : BrowserManager -> BrowserManager) : M unit :=
  fun st => (Resolved tt, mkState (f (self st)) (world st) (trace st)).

(** Reading and stepping one part of the world. *)
Definition read_os {A} (f : OsW -> A) : M A :=
  fun st => (Resolved (f (os (world st))), st).

Definition step_os {A} (f : OsW -> A * OsW) : M A :=
  fun st =>
    let (a, o) := f (os (world st)) in
    (Resolved a,
     mkState (self st) (mkWorld o (drv (world st)) (mcp (world st)))
             (trace st)).

Definition read_drv {A} (f : DrvW -> A) : M A :=
  fun st => (Resolved (f (drv (world st))), st).

Definition await_drv {A} (f : DrvW -> outcome A * DrvW) : M A :=
  fun st =>
    let (r, d) := f (drv (world st)) in
    (r, mkState (self st) (mkWorld (os (world st)) d (mcp (world st)))
                (trace st)).

Definition read_mcp {A} (f : McpW -> A) : M A :=
  fun st => (Resolved (f (mcp (world st))), st).

Definition await_mcp {A} (f : McpW -> outcome A * McpW) : M A :=
  fun st =>
    let (r, m) := f (mcp (world st)) in
    (r, mkState (self st) (mkWorld (os (world st)) (drv (world st)) m)
                (trace st)).

End Model.

Declare Scope js_scope.
Delimit Scope js_scope with js.
Notation "x <- m ;; k" := (bind m (fun x => k))
  (at level 61, m at next level, right associativity) : js_scope.
Notation "m ;; k" := (bind m (fun _ => k))
  (at level 61, right associativity) : js_scope.
Open Scope js_scope.

Section Code.

Context {P : Platform}.

(** ** [packages/core/src/utils/net.ts] *)

(** [getFreePort]: the promise executor creates a server, registers [reject]
    on ['error'] and listens on port [0]; the listening callback reads the
    address, closes the server and settles in the close callback. *)
Definition getFreePort : M N :=
  emit EvCreateServer ;;
  emit (EvListen 0) ;;
  err <- step_os (net_listen 0) ;;
  match err with
  | Some e => throw e
  | None =>
      emit EvAddress ;;
      address <- read_os net_address ;;
      (* typeof address === 'string' ? 0 : address?.port *)
      let port : option N :=
        match address with
        | AddrPipe _ => Some 0%N
        | AddrInfo p => Some p
        | AddrNull => None
        end in
      emit EvClose ;;
      step_os (fun o => (tt, net_close o)) ;;
      match port with
      | Some p =>
          if truthy p then ret p else throw (Error "Failed to get port")
      | None => throw (Error "Failed to get port")
      end
  end.

(** ** The browser manager *)

Definition set_mcpClient (v : option McpClient) (m : BrowserManager)
  : BrowserManager :=
  mkBrowserManager (config m) v (browser m) (page m) (remoteDebuggingPort m).

Definition set_browser (v : option Browser) (m : BrowserManager)
  : BrowserManager :=
  mkBrowserManager (config m) (mcpClient m) v (page m) (remoteDebuggingPort m).

Definition set_page (v : option Page) (m : BrowserManager) : BrowserManager :=
  mkBrowserManager (config m) (mcpClient m) (browser m) v
                   (remoteDebuggingPort m).

Definition set_remoteDebuggingPort (v : option N) (m : BrowserManager)
  : BrowserManager :=
  mkBrowserManager (config m) (mcpClient m) (browser m) (page m) v.

(** [settings?.headless ?? false] *)
Definition headless_of (c : Config) : bool :=
  match browserAgentSettings c with
  | Some settings =>
      match headless settings with
      | Some b => b
      | None => false
      end
  | None => false
  end.

(** The [args] array handed to [chromium.launch]. *)
Definition launchArgs (port : N) : list string :=
  ["--remote-debugging-port=" ++ Number_toString port;
   "--window-size=1024,1024"].

Definition launchBrowser (port : N) : M unit :=
  emit (EvLog "Launching Chrome via Playwright...") ;;
  me <- this ;;
  let headless := headless_of (config me) in
  emit (EvLaunch headless (launchArgs port)) ;;
  b <- await_drv (chromium_launch headless (launchArgs port)) ;;
  assign (set_browser (Some b)) ;;
  (* this.browser.newContext({ viewport: null }) *)
  emit (EvNewContext b) ;;
  context <- await_drv (browser_newContext b) ;;
  emit (EvNewPage context) ;;
  pg <- await_drv (context_newPage context) ;;
  assign (set_page (Some pg)) ;;
  emit (EvLog ("Browser launched successfully on port "
               ++ Number_toString port ++ ".")).

(** [`chrome-devtools-${port}`] *)
Definition clientName (port : N) : string :=
  "chrome-devtools-" ++ Number_toString port.

(** [`http://127.0.0.1:${port}`] *)
Definition browserUrl (port : N) : string :=
  "http://127.0.0.1:" ++ Number_toString port.

(** The [args] array of the server registered with the client manager. *)
Definition mcpArgs (port : N) : list string :=
  ["-y"; "chrome-devtools-mcp@latest"; "--browser-url"; browserUrl port].

Definition connectMcp (port : N) : M unit :=
  me <- this ;;
  match getMcpClientManager (config me) with
  | None => throw (Error "MCP Client Manager not available in config")
  | Some mcpManager =>
      let name := clientName port in
      emit (EvGetClient name) ;;
      found <- read_mcp (manager_getClient mcpManager name) ;;
      client <-
        match found with
        | Some c => ret (Some c)
        | None =>
            emit (EvLog ("Registering chrome-devtools-mcp server ("
                         ++ name ++ ") dynamically...")) ;;
            emit (EvMaybeDiscoverMcpServer name "npx" (mcpArgs port)) ;;
            await_mcp (manager_maybeDiscoverMcpServer
                         mcpManager name "npx" (mcpArgs port)) ;;
            emit (EvGetClient name) ;;
            read_mcp (manager_getClient mcpManager name)
        end ;;
      match client with
      | None => throw (Error "Failed to initialize chrome-devtools MCP client")
      | Some c =>
          emit (EvGetStatus c) ;;
          status <- read_mcp (client_getStatus c) ;;
          (if String.eqb status "connected" then ret tt
           else emit (EvConnect c) ;; await_mcp (client_connect c)) ;;
          assign (set_mcpClient (Some c))
      end
  end.

(** The three blocks of [ensureBrowserLaunched], in source order. *)

(** [if (!this.remoteDebuggingPort) this.remoteDebuggingPort = await
    getFreePort(); const port = this.remoteDebuggingPort;] *)
Definition portStage : M N :=
  me <- this ;;
  let allocate : M N :=
    p <- getFreePort ;;
    assign (set_remoteDebuggingPort (Some p)) ;;
    ret p in
  match remoteDebuggingPort me with
  | Some p => if truthy p then ret p else allocate
  | None => allocate
  end.

(** [if (!this.browser || !this.browser.isConnected()) await
    this.launchBrowser(port);] *)
Definition browserStage (port : N) : M unit :=
  me <- this ;;
  match browser me with
  | None => launchBrowser port
  | Some b =>
      emit (EvIsConnected b) ;;
      connected <- read_drv (browser_isConnected b) ;;
      if connected then ret tt else launchBrowser port
  end.

(** [if (!this.mcpClient || this.mcpClient.getStatus() !== 'connected') await
    this.connectMcp(port);] *)
Definition clientStage (port : N) : M unit :=
  me <- this ;;
  match mcpClient me with
  | None => connectMcp port
  | Some c =>
      emit (EvGetStatus c) ;;
      status <- read_mcp (client_getStatus c) ;;
      if String.eqb status "connected" then ret tt else connectMcp port
  end.

Definition ensureBrowserLaunched : M unit :=
  port <- portStage ;;
  browserStage port ;;
  clientStage port.

Definition ensureConnection : M unit := ensureBrowserLaunched.

Definition getMcpClient : M McpClient :=
  me <- this ;;
  let slow : M McpClient :=
    ensureConnection ;;
    me' <- this ;;
    match mcpClient me' with
    | None => throw (Error "Failed to initialize chrome-devtools MCP client")
    | Some c => ret c
    end in
  match mcpClient me with
  | None => slow
  | Some c =>
      emit (EvGetStatus c) ;;
      status <- read_mcp (client_getStatus c) ;;
      if String.eqb status "connected" then ret c else slow
  end.

Definition getPage : M Page :=
  me <- this ;;
  match page me with
  | None => ensureBrowserLaunched
  | Some _ => ret tt
  end ;;
  me' <- this ;;
  match page me' with
  | None => throw (Error "Browser page not available")
  | Some pg => ret pg
  end.

(** ** The browser tools ([pressKey] and [keyCombination]) *)

Definition dquote : string := String (Ascii.ascii_of_nat 34) EmptyString.

Definition pressKey (key : string) : M ToolResult :=
  client <- getMcpClient ;;
  emit (EvCallTool client "press_key" [("key", key)]) ;;
  await_mcp (client_callTool client "press_key" [("key", key)]) ;;
  ret (mkToolResult (Some ("Pressed key " ++ dquote ++ key ++ dquote))
                    None None).

Definition keyCombination (keys : string) : M ToolResult := pressKey keys.

(** ** Reading the call log *)

Definition calls (f : event -> bool) (t : list event) : nat :=
  length (filter f t).

Definition is_createServer (ev : event) : bool :=
  match ev with EvCreateServer => true | _ => false end.

(** Every call to [getFreePort] creates exactly one server, and nothing else
    does: the servers created count the calls to the port allocator. *)
Definition allocations (t : list event) : nat := calls is_createServer t.

Definition is_listen (ev : event) : bool :=
  match ev with EvListen _ => true | _ => false end.

Definition is_launch (ev : event) : bool :=
  match ev with EvLaunch _ _ => true | _ => false end.

Definition is_driver (ev : event) : bool :=
  match ev with
  | EvLaunch _ _ | EvIsConnected _ | EvNewContext _ | EvNewPage _ => true
  | _ => false
  end.

Definition is_register (ev : event) : bool :=
  match ev with EvMaybeDiscoverMcpServer _ _ _ => true | _ => false end.

Definition is_connect (ev : event) : bool :=
  match ev with EvConnect _ => true | _ => false end.

Definition is_mcp (ev : event) : bool :=
  match ev with
  | EvGetClient _ | EvMaybeDiscoverMcpServer _ _ _ | EvGetStatus _
  | EvConnect _ | EvCallTool _ _ _ => true
  | _ => false
  end.

(** ** Sequences of calls *)


(** States a manager can be in: a new manager, then any number of awaited
    calls to its public methods.  Nothing else touches the world. *)
Inductive reachable : State -> Prop :=
| reach_new : forall c w, reachable (fresh c w)
| reach_ensureConnection :
    forall st, reachable st -> reachable (snd (ensureConnection st))
| reach_getMcpClient :
    forall st, reachable st -> reachable (snd (getMcpClient st))
| reach_getPage :
    forall st, reachable st -> reachable (snd (getPage st)).

(** The browser a page lives in. *)
Definition page_browser (pg : Page) : Browser :=
  context_browser (page_context pg).



End Code.

(** ** A small simulated world

    A concrete [Platform] on which the code can be run: browsers, contexts
    and pages are numbered, a context and a page carry the number of their
    browser, clients are known by their registered name, and each operation
    that can fail does so when the world says so. *)
Module Sim.

Record Os : Type := mkOs {
  listen_error : option exn;
  bound_address : Address
}.

Record Drv : Type := mkDrv {
  next_id : nat;
  alive : list nat;
  launch_error : option exn;
  newContext_error : option exn;
  newPage_error : option exn
}.

Record Mcp : Type := mkMcp {
  registry : list string;
  connected : list string;
  discover_error : option exn;
  discover_connects : bool;
  connect_error : option exn
}.

Definition mem_nat (n : nat) (l : list nat) : bool := existsb (Nat.eqb n) l.

Definition mem_string (s : string) (l : list string) : bool :=
  existsb (String.eqb s) l.

Definition launch (_ : bool) (_ : list string) (d : Drv)
  : outcome nat * Drv :=
  match launch_error d with
  | Some e => (Rejected e, d)
  | None =>
      (Resolved (next_id d),
       mkDrv (S (next_id d)) (next_id d :: alive d) (launch_error d)
             (newContext_error d) (newPage_error d))
  end.

Definition newContext (b : nat) (d : Drv) : outcome nat * Drv :=
  match newContext_error d with
  | Some e => (Rejected e, d)
  | None => (Resolved b, d)
  end.

Definition newPage (c : nat) (d : Drv) : outcome nat * Drv :=
  match newPage_error d with
  | Some e => (Rejected e, d)
  | None => (Resolved c, d)
  end.

(** The browser process [b] dies. *)
Definition kill (b : nat) (d : Drv) : Drv :=
  mkDrv (next_id d) (filter (fun x => negb (Nat.eqb x b)) (alive d))
        (launch_error d) (newContext_error d) (newPage_error d).

Definition getClient (_ : unit) (name : string) (m : Mcp) : option string :=
  if mem_string name (registry m) then Some name else None.

Definition maybeDiscoverMcpServer (_ : unit) (name : string) (_ : string)
    (_ : list string) (m : Mcp) : outcome unit * Mcp :=
  match discover_error m with
  | Some e => (Rejected e, m)
  | None =>
      (Resolved tt,
       mkMcp (name :: registry m)
             (if discover_connects m then name :: connected m
              else connected m)
             (discover_error m) (discover_connects m) (connect_error m))
  end.

Definition getStatus (c : string) (m : Mcp) : string :=
  if mem_string c (connected m) then "connected" else "disconnected".

Definition connect (c : string) (m : Mcp) : outcome unit * Mcp :=
  match connect_error m with
  | Some e => (Rejected e, m)
  | None =>
      (Resolved tt,
       mkMcp (registry m) (c :: connected m) (discover_error m)
             (discover_connects m) (connect_error m))
  end.

Definition callTool (_ : string) (_ : string) (_ : list (string * string))
    (m : Mcp) : outcome unit * Mcp :=
  (Resolved tt, m).

#[export] Instance platform : Platform := {
  OsW := Os;
  net_listen := fun _ o => (listen_error o, o);
  net_address := bound_address;
  net_close := fun o => o;
  DrvW := Drv;
  Browser := nat;
  BrowserContext := nat;
  Page := nat;
  chromium_launch := launch;
  browser_isConnected := fun b d => mem_nat b (alive d);
  browser_newContext := newContext;
  context_newPage := newPage;
  context_browser := fun c => c;
  page_context := fun pg => pg;
  McpW := Mcp;
  McpClient := string;
  McpClientManager := unit;
  CallToolResult := unit;
  manager_getClient := getClient;
  manager_maybeDiscoverMcpServer := maybeDiscoverMcpServer;
  client_getStatus := getStatus;
  client_connect := connect;
  client_callTool := callTool
}.

(** A configuration with a client manager and default settings. *)
Definition cfg : Config :=
  {| browserAgentSettings := None; getMcpClientManager := Some tt |}.

(** The OS hands out port 54213; nothing fails; a registered server comes
    back connected. *)
Definition good_os : Os := mkOs None (AddrInfo 54213).
Definition good_drv : Drv := mkDrv 0 [] None None None.
Definition good_mcp : Mcp := mkMcp [] [] None true None.
Definition good_world : World := mkWorld good_os good_drv good_mcp.

Definition st0 : State := fresh cfg good_world.

(** Something happens to the driver's world between two calls. *)
Definition with_drv (f : Drv -> Drv) (st : State) : State :=
  mkState (self st)
          (mkWorld (os (world st)) (f (drv (world st))) (mcp (world st)))
          (trace st).

(** The browser process [b] dies between two calls. *)
Definition browser_dies (b : nat) (st : State) : State := with_drv (kill b) st.

(** From now on no context can be opened. *)
Definition contexts_fail (e : exn) (d : Drv) : Drv :=
  mkDrv (next_id d) (alive d) (launch_error d) (Some e) (newPage_error d).

(** A manager that has served one [getPage]: port 54213, browser 0 with
    page 0, client connected. *)
Definition st_ready : State := snd (getPage st0).

(** Then browser 0 dies. *)
Definition st_dead : State := browser_dies 0 st_ready.

(** Browser 0 dies and the driver can launch but not open a context. *)
Definition st_stale : State :=
  with_drv (contexts_fail (Error "Target closed")) st_dead.

(** A new manager in a world where the launch fails. *)
Definition st_launch_fails : State :=
  fresh cfg
    (mkWorld good_os
             (mkDrv 0 [] (Some (Error "Executable not found")) None None)
             good_mcp).

(** A new manager in a world where the probe socket cannot listen. *)
Definition st_no_port : State :=
  fresh cfg
    (mkWorld (mkOs (Some (Error "listen EADDRNOTAVAIL")) AddrNull)
             good_drv good_mcp).

(** A new manager whose client manager registers servers without connecting
    them. *)
Definition st_unconnected : State :=
  fresh cfg (mkWorld good_os good_drv (mkMcp [] [] None false None)).

(** A new manager whose client for port 54213 is registered, disconnected,
    and refuses to connect. *)
Definition st_refused : State :=
  fresh cfg
    (mkWorld good_os good_drv
             (mkMcp ["chrome-devtools-54213"] [] None true
                    (Some (Error "connect ECONNREFUSED")))).

End Sim.

(** * The browser tools that go through the MCP client *)

(** ** Values that cross the tool-call boundary *)

(** An argument value of [callTool] that need not be a string. *)
Inductive JsArg : Type :=
| ArgString (s : string)
| ArgBoolean (b : bool)
| ArgUndefined.

(** [String(v)], used to show an argument in the call log. *)
Definition JsArg_toString (v : JsArg) : string :=
  match v with
  | ArgString s => s
  | ArgBoolean true => "true"
  | ArgBoolean false => "false"
  | ArgUndefined => "undefined"
  end.

(** One entry of [result.content]: [item.type] and the optional
    [item.text]. *)
Record ContentItem : Type := mkContentItem {
  item_type : string;
  item_text : option string
}.

(** [action: 'accept' | 'dismiss'] of [handleDialog]. *)
Inductive DialogAction : Type :=
| accept
| dismiss.

Definition DialogAction_toString (a : DialogAction) : string :=
  match a with
  | accept => "accept"
  | dismiss => "dismiss"
  end.

(** What the tools need besides [Platform]: [callTool] with arguments that
    are not all strings, the [content] of a tool result ([None] when it is
    missing or not an array), and the JavaScript built-ins [JSON.stringify]
    (on a string, and on an object [{active, capturing}] of two booleans) and
    [String] (on a caught value). *)
Class ToolPlatform {P : Platform} : Type := {
  client_callToolArgs :
    McpClient -> string -> list (string * JsArg) -> McpW ->
    outcome CallToolResult * McpW;
  result_content : CallToolResult -> option (list ContentItem);
  JSON_stringify : string -> string;
  JSON_stringify_options : bool -> bool -> string;
  String_of_exn : exn -> string
}.

Section Tools.

Context {P : Platform} {T : ToolPlatform}.

(** [try { body } catch (err) { handler }] *)
Definition try_catch {A} (body : M A) (handler : exn -> M A) : M A :=
  fun st =>
    match body st with
    | (Resolved a, st') => (Resolved a, st')
    | (Rejected err, st') => handler err st'
    end.

(** [await client.callTool(tool, args)] with string arguments, and with
    arguments of any kind. *)
Definition callTool (client : McpClient) (tool : string)
    (args : list (string * string)) : M CallToolResult :=
  emit (EvCallTool client tool args) ;;
  await_mcp (client_callTool client tool args).

Definition callToolArgs (client : McpClient) (tool : string)
    (args : list (string * JsArg)) : M CallToolResult :=
  emit (EvCallTool client tool
          (map (fun kv => (fst kv, JsArg_toString (snd kv))) args)) ;;
  await_mcp (client_callToolArgs client tool args).

(** The script of [showOverlay], around the interpolated [safeMessage]. *)
Definition showOverlay_script (safeMessage : string) : string :=
  "() => {
      const msg = " ++ safeMessage ++ ";
      let overlay = document.getElementById('gemini-overlay');
      if (!overlay) {
        overlay = document.createElement('div');
        overlay.id = 'gemini-overlay';
        overlay.style.position = 'fixed';
        overlay.style.bottom = '50px';
        overlay.style.left = '50%';
        overlay.style.transform = 'translateX(-50%)';
        overlay.style.background = 'rgba(32, 33, 36, 0.9)';
        overlay.style.color = 'white';
        overlay.style.padding = '12px 24px';
        overlay.style.zIndex = '2147483647';
        overlay.style.borderRadius = '24px';
        overlay.style.fontSize = '16px';
        overlay.style.fontFamily = 'Google Sans, Roboto, sans-serif';
        overlay.style.fontWeight = '500';
        overlay.style.pointerEvents = 'none';
        overlay.style.boxShadow = '0 4px 6px rgba(0,0,0,0.1)';
        overlay.style.transition = 'opacity 0.3s ease-in-out';
        document.body.appendChild(overlay);
      }
      overlay.innerText = msg;
    }".

Definition showOverlay (message : string) : M unit :=
  getMcpClient ;;
  let safeMessage := JSON_stringify message in
  let scriptWithMsg := showOverlay_script safeMessage in
  client <- getMcpClient ;;
  try_catch
    (callTool client "evaluate_script" [("function", scriptWithMsg)] ;;
     ret tt)
    (fun err => emit (EvLog ("Failed to show overlay: " ++ String_of_exn err))).

(** The script of [updateBorderOverlay], around the interpolated
    [safeOptions]. *)
Definition updateBorderOverlay_script (safeOptions : string) : string :=
  "() => {
        const { active, capturing } = " ++ safeOptions ++ ";
        // 1. Inject CSS if not present
        if (!document.getElementById('gemini-border-style')) {
          const style = document.createElement('style');
          style.id = 'gemini-border-style';
          style.textContent = `
            :root {
              --color-blue: rgb(0, 102, 255);
              --color-blue-glow: rgba(0, 102, 255, 0.9);
            }
            #preact-border-container {
              pointer-events: none;
              z-index: 2147483647;
              position: fixed;
              top: 0;
              left: 0;
              width: 100%;
              height: 100%;
              border: 2px solid var(--color-blue);
              box-shadow: inset 0 0 10px 0px var(--color-blue-glow);
              opacity: 1;
              transition: opacity 300ms ease-in-out;
              box-sizing: border-box;
            }
            #preact-border-container.hidden {
              opacity: 0;
            }
            @keyframes breathe {
              0%, 100% {
                box-shadow: inset 0 0 20px 0px var(--color-blue-glow);
              }
              50% {
                box-shadow: inset 0 0 30px 10px var(--color-blue-glow);
              }
            }
            #preact-border-container.animate-breathing {
              animation: breathe 3s ease-in-out infinite;
            }
          `;
          document.head.appendChild(style);
        }

        // 2. Manage Container
        let container = document.getElementById('preact-border-container');
        if (!container) {
          container = document.createElement('div');
          container.id = 'preact-border-container';
          document.body.appendChild(container);
        }

        // 3. Update State
        if (active) {
          container.classList.remove('hidden');
          if (!capturing) {
            container.classList.add('animate-breathing');
          } else {
            container.classList.remove('animate-breathing');
          }
        } else {
          container.classList.add('hidden');
          container.classList.remove('animate-breathing');
        }
    }".

Definition updateBorderOverlay (active capturing : bool) : M unit :=
  let safeOptions := JSON_stringify_options active capturing in
  let script := updateBorderOverlay_script safeOptions in
  client <- getMcpClient ;;
  try_catch
    (callTool client "evaluate_script" [("function", script)] ;; ret tt)
    (fun err =>
       emit (EvLog ("Failed to update border overlay: "
                    ++ String_of_exn err))).

Definition removeOverlay_script : string :=
  "() => {
        const overlay = document.getElementById('gemini-overlay');
        if (overlay) {
          overlay.remove();
        }
    }".

Definition removeOverlay : M unit :=
  client <- getMcpClient ;;
  try_catch
    (callTool client "evaluate_script" [("function", removeOverlay_script)] ;;
     ret tt)
    (fun err =>
       emit (EvLog ("Failed to remove overlay: " ++ String_of_exn err))).

Definition openWebBrowser : M ToolResult :=
  getMcpClient ;;
  ret (mkToolResult (Some "Browser opened") None None).

(** [content.filter(item => item.type === 'text').map(item => item.text)
    .join('')]: a missing text joins as the empty string. *)
Definition joinTexts (content : list ContentItem) : string :=
  String.concat EmptyString
    (map (fun text => match text with Some s => s | None => EmptyString end)
         (map item_text
              (filter (fun item => String.eqb (item_type item) "text")
                      content))).

(** [let output = ''; if (content && Array.isArray(content)) output = ...] *)
Definition snapshotOutput (content : option (list ContentItem)) : string :=
  match content with
  | Some items => joinTexts items
  | None => EmptyString
  end.

(** [takeSnapshot(verbose = false)]: [None] is a call without argument. *)
Definition takeSnapshot (verbose : option bool) : M ToolResult :=
  let verbose := match verbose with Some b => b | None => false end in
  client <- getMcpClient ;;
  result <- callToolArgs client "take_snapshot"
              [("verbose", ArgBoolean verbose)] ;;
  ret (mkToolResult (Some (snapshotOutput (result_content result)))
                    None None).

Definition waitFor (text : string) : M ToolResult :=
  client <- getMcpClient ;;
  callTool client "wait_for" [("text", text)] ;;
  ret (mkToolResult (Some ("Waited for text " ++ dquote ++ text ++ dquote))
                    None None).

Definition handleDialog (action : DialogAction) (promptText : option string)
  : M ToolResult :=
  client <- getMcpClient ;;
  callToolArgs client "handle_dialog"
    [("action", ArgString (DialogAction_toString action));
     ("promptText",
      match promptText with
      | Some s => ArgString s
      | None => ArgUndefined
      end)] ;;
  ret (mkToolResult
         (Some ("Dialog " ++ DialogAction_toString action ++ "ed"))
         None None).

Definition drag (fromUid toUid : string) : M ToolResult :=
  client <- getMcpClient ;;
  callTool client "drag" [("from_uid", fromUid); ("to_uid", toUid)] ;;
  ret (mkToolResult (Some "Dragged element") None None).

End Tools.

(** * The browser tools that go through the page *)

(** The size of the viewport: [{ width, height }]. *)
Record Viewport {number : Type} : Type := mkViewport {
  width : number;
  height : number
}.

Arguments Viewport number : clear implicits.

(** What the page tools need besides [Platform]: JavaScript numbers with
    the arithmetic and printing the tools apply to them (nothing is assumed
    about the results), the values a script can evaluate to, and the calls
    on a Playwright page, which act on the driver's world.  [null] and a
    missing option are [None]. *)
Class PagePlatform {P : Platform} : Type := {
  number : Type;
  Number_1000 : number;
  Number_div : number -> number -> number;
  Number_mul : number -> number -> number;
  (* [`${n}`] and [n.toFixed(0)] *)
  Number_template : number -> string;
  Number_toFixed0 : number -> string;

  JsValue : Type;
  (* [typeof v === 'object'], [JSON.stringify(v)], [String(v)] *)
  typeof_object : JsValue -> bool;
  JSON_stringify_value : JsValue -> string;
  String_value : JsValue -> string;

  page_viewportSize : Page -> DrvW -> option (Viewport number);
  (* [page.evaluate(() => ({ width: window.innerWidth, height:
     window.innerHeight }))] *)
  page_evaluate_windowSize :
    Page -> DrvW -> outcome (option (Viewport number)) * DrvW;
  (* [page.evaluate(script)] on a script given as a string *)
  page_evaluate : Page -> string -> DrvW -> outcome JsValue * DrvW;
  mouse_click : Page -> number -> number -> DrvW -> outcome unit * DrvW;
  (* [page.mouse.move(x, y, { steps })], [steps] optional *)
  mouse_move :
    Page -> number -> number -> option nat -> DrvW -> outcome unit * DrvW;
  mouse_down : Page -> DrvW -> outcome unit * DrvW;
  mouse_up : Page -> DrvW -> outcome unit * DrvW;
  keyboard_press : Page -> string -> DrvW -> outcome unit * DrvW;
  keyboard_type : Page -> string -> DrvW -> outcome unit * DrvW
}.

Section PageTools.

Context {P : Platform} {T : ToolPlatform} {G : PagePlatform}.

(** [e instanceof Error ? e.message : String(e)] *)
Definition message_of (e : exn) : string :=
  match e with
  | Error message => message
  end.

Definition output_result (s : string) : ToolResult :=
  mkToolResult (Some s) None None.

Definition error_result (s : string) : ToolResult :=
  mkToolResult None (Some s) None.

Definition getViewportSize : M (option (Viewport number)) :=
  page <- getPage ;;
  viewport <- read_drv (page_viewportSize page) ;;
  match viewport with
  | Some v => ret (Some v)
  | None => await_drv (page_evaluate_windowSize page)
  end.

(** [(n / 1000) * size] *)
Definition scale (n size : number) : number :=
  Number_mul (Number_div n Number_1000) size.

Definition clickAt (x y : number) : M ToolResult :=
  showOverlay ("Clicking at " ++ Number_template x ++ ", "
               ++ Number_template y) ;;
  page <- getPage ;;
  try_catch
    (viewport <- getViewportSize ;;
     match viewport with
     | None => ret (error_result "Viewport not available")
     | Some viewport =>
         let actualX := scale x (width viewport) in
         let actualY := scale y (height viewport) in
         await_drv (mouse_click page actualX actualY) ;;
         ret (output_result
                ("Clicked at " ++ Number_template x ++ ", "
                 ++ Number_template y ++ " (scaled to "
                 ++ Number_toFixed0 actualX ++ ", "
                 ++ Number_toFixed0 actualY ++ ")"))
     end)
    (fun e =>
       ret (error_result
              ("Failed to click at " ++ Number_template x ++ ", "
               ++ Number_template y ++ ": " ++ message_of e))).

(** [typeTextAt(x, y, text, pressEnter = false, clearBeforeTyping = false)]:
    [None] is an argument left out. *)
Definition typeTextAt (x y : number) (text : string)
    (pressEnter clearBeforeTyping : option bool) : M ToolResult :=
  let pressEnter := match pressEnter with Some b => b | None => false end in
  let clearBeforeTyping :=
    match clearBeforeTyping with Some b => b | None => false end in
  page <- getPage ;;
  try_catch
    (clickAt x y ;;
     (if clearBeforeTyping
      then await_drv (keyboard_press page "Control+A") ;;
           await_drv (keyboard_press page "Backspace")
      else ret tt) ;;
     await_drv (keyboard_type page text) ;;
     (if pressEnter then await_drv (keyboard_press page "Enter")
      else ret tt) ;;
     ret (output_result
            ("Typed " ++ dquote ++ text ++ dquote ++ " at "
             ++ Number_template x ++ ", " ++ Number_template y)))
    (fun e =>
       ret (error_result
              ("Failed to type at " ++ Number_template x ++ ", "
               ++ Number_template y ++ ": " ++ message_of e))).

Definition dragAndDrop (x y destX destY : number) : M ToolResult :=
  page <- getPage ;;
  try_catch
    (viewport <- getViewportSize ;;
     match viewport with
     | None => ret (error_result "Viewport not available")
     | Some viewport =>
         let actualX := scale x (width viewport) in
         let actualY := scale y (height viewport) in
         let actualDestX := scale destX (width viewport) in
         let actualDestY := scale destY (height viewport) in
         await_drv (mouse_move page actualX actualY None) ;;
         await_drv (mouse_down page) ;;
         await_drv (mouse_move page actualDestX actualDestY (Some 5)) ;;
         await_drv (mouse_up page) ;;
         ret (output_result
                ("Dragged from " ++ Number_template x ++ ","
                 ++ Number_template y ++ " to " ++ Number_template destX
                 ++ "," ++ Number_template destY))
     end)
    (fun e => ret (error_result ("Failed to drag: " ++ message_of e))).

Definition evaluateScript (script : string) : M ToolResult :=
  page <- getPage ;;
  try_catch
    (let wrappedScript := "(function() { return " ++ script ++ "; })()" in
     result <- await_drv (page_evaluate page wrappedScript) ;;
     let output :=
       if typeof_object result then JSON_stringify_value result
       else String_value result in
     ret (output_result output))
    (fun e =>
       ret (error_result ("Script execution failed: " ++ message_of e))).

(** The error, if any, that stops a series of driver calls made one after
    the other from the world [d]: the first rejection. *)
Fixpoint first_failure (calls : list (DrvW -> outcome unit * DrvW))
    (d : DrvW) : option exn :=
  match calls with
  | [] => None
  | call :: rest =>
      match call d with
      | (Rejected e, _) => Some e
      | (Resolved _, d') => first_failure rest d'
      end
  end.

End PageTools.

(** * A call suspended at its first [await]

    [ensureBrowserLaunched] runs without interruption up to its first
    [await].  When no port is stored this is [await getFreePort()]: by then
    the promise executor of [getFreePort] has created the server and asked
    it to listen, and the call waits for the server's callbacks to settle
    the promise.  Another call can be made in the meantime. *)

Section Suspended.

Context {P : Platform}.

(** [getFreePort()] up to the return of the promise; the result is the
    event the server is going to emit, an error or none. *)
Definition getFreePort_called : M (option exn) :=
  emit EvCreateServer ;;
  emit (EvListen 0) ;;
  step_os (net_listen 0).

(** The callbacks of the server, which settle the promise. *)
Definition getFreePort_settled (err : option exn) : M N :=
  match err with
  | Some e => throw e
  | None =>
      emit EvAddress ;;
      address <- read_os net_address ;;
      let port : option N :=
        match address with
        | AddrPipe _ => Some 0%N
        | AddrInfo p => Some p
        | AddrNull => None
        end in
      emit EvClose ;;
      step_os (fun o => (tt, net_close o)) ;;
      match port with
      | Some p =>
          if truthy p then ret p else throw (Error "Failed to get port")
      | None => throw (Error "Failed to get port")
      end
  end.

(** Where a call to [ensureBrowserLaunched] stands after the test of the
    stored port: waiting for [getFreePort], or going on with the stored
    port. *)
Inductive pending : Type :=
| AwaitingPort (err : option exn)
| HasPort (port : N).

Definition ensureBrowserLaunched_called : M pending :=
  me <- this ;;
  let wait : M pending :=
    err <- getFreePort_called ;;
    ret (AwaitingPort err) in
  match remoteDebuggingPort me with
  | Some p => if truthy p then ret (HasPort p) else wait
  | None => wait
  end.

(** The rest of the call: the settled port is stored, then the browser and
    the client stage run. *)
Definition ensureBrowserLaunched_resumed (s : pending) : M unit :=
  port <-
    match s with
    | HasPort p => ret p
    | AwaitingPort err =>
        p <- getFreePort_settled err ;;
        assign (set_remoteDebuggingPort (Some p)) ;;
        ret p
    end ;;
  browserStage port ;;
  clientStage port.



End Suspended.

(** A world like [Sim] whose OS hands out port 54213 to the first server
    that is closed, 54214 to the next, and so on. *)
Module SimRace.

Definition platform : Platform := {|
  OsW := nat;
  net_listen := fun _ closed => (None, closed);
  net_address := fun closed => AddrInfo (54213 + N.of_nat closed);
  net_close := S;
  DrvW := Sim.Drv;
  Browser := nat;
  BrowserContext := nat;
  Page := nat;
  chromium_launch := Sim.launch;
  browser_isConnected := fun b d => Sim.mem_nat b (Sim.alive d);
  browser_newContext := Sim.newContext;
  context_newPage := Sim.newPage;
  context_browser := fun c => c;
  page_context := fun pg => pg;
  McpW := Sim.Mcp;
  McpClient := string;
  McpClientManager := unit;
  CallToolResult := unit;
  manager_getClient := Sim.getClient;
  manager_maybeDiscoverMcpServer := Sim.maybeDiscoverMcpServer;
  client_getStatus := Sim.getStatus;
  client_connect := Sim.connect;
  client_callTool := Sim.callTool
|}.

Definition manager : @McpClientManager platform := tt.

Definition cfg : @Config platform :=
  {| browserAgentSettings := None; getMcpClientManager := Some manager |}.

Definition no_server_closed : @OsW platform := 0.

(** A new manager; nothing fails. *)
Definition st0 : @State platform :=
  @fresh platform cfg
         (@mkWorld platform no_server_closed Sim.good_drv Sim.good_mcp).

End SimRace.

(** ** Calling the manager's public methods in any order *)

Inductive method : Type :=
| EnsureConnection
| GetMcpClient
| GetPage.

Section Sequences.

Context {P : Platform}.

(** The state after one awaited call, resolved or rejected. *)
Definition invoke (m : method) (st : State) : State :=
  match m with
  | EnsureConnection => snd (ensureConnection st)
  | GetMcpClient => snd (getMcpClient st)
  | GetPage => snd (getPage st)
  end.

Definition invoke_all (ms : list method) (st : State) : State :=
  fold_left (fun s m => invoke m s) ms st.

(** The lazily created fields depend on one another: a stored port is
    non-zero, a browser needs a port, a client and a page need a browser. *)
Definition in_dependency_order (me : BrowserManager) : Prop :=
  (forall p, remoteDebuggingPort me = Some p -> p <> 0%N) /\
  (browser me <> None -> remoteDebuggingPort me <> None) /\
  (mcpClient me <> None -> browser me <> None) /\
  (page me <> None -> browser me <> None).

(** A logged call that names a port names [p]: a launch carries the
    arguments for [p], a registry lookup or registration the client name and
    arguments for [p]. *)
Definition bound_to (p : N) (ev : event) : Prop :=
  match ev with
  | EvLaunch _ args => args = launchArgs p
  | EvGetClient name => name = clientName p
  | EvMaybeDiscoverMcpServer name command args =>
      name = clientName p /\ command = "npx" /\ args = mcpArgs p
  | _ => True
  end.

(** A logged call that names no port at all. *)
Definition portless (ev : event) : Prop :=
  match ev with
  | EvLaunch _ _ | EvGetClient _ | EvMaybeDiscoverMcpServer _ _ _ => False
  | _ => True
  end.

(** Port [p] is stored and the configured client manager [m] knows a client
    under the name for [p]. *)
Definition registered_for (m : McpClientManager) (p : N) (st : State) : Prop :=
  remoteDebuggingPort (self st) = Some p /\
  getMcpClientManager (config (self st)) = Some m /\
  manager_getClient m (clientName p) (mcp (world st)) <> None.

(** All of the log is about the one stored port. *)
Definition single_port (st : State) : Prop :=
  match remoteDebuggingPort (self st) with
  | Some p => Forall (bound_to p) (trace st)
  | None => Forall portless (trace st)
  end.

End Sequences.

(** ** The simulated world for the tools *)
Module SimTools.

(** A tool result carries a text item, an image item and another text
    item. *)
Definition content : list ContentItem :=
  [mkContentItem "text" (Some "uid=1 button");
   mkContentItem "image" None;
   mkContentItem "text" (Some " uid=2 link")].

#[export] Instance tools : @ToolPlatform Sim.platform := {
  client_callToolArgs := fun _ _ _ m => (Resolved tt, m);
  result_content := fun _ => Some content;
  JSON_stringify := fun s => (dquote ++ s ++ dquote)%string;
  JSON_stringify_options := fun _ _ => "{}";
  String_of_exn := fun e => match e with Error m => ("Error: " ++ m)%string end
}.

End SimTools.

(** A world like [Sim] in which every tool call is rejected. *)
Module SimBroken.

Definition callTool (_ : string) (_ : string) (_ : list (string * string))
    (m : Sim.Mcp) : outcome unit * Sim.Mcp :=
  (Rejected (Error "Target closed"), m).

Definition platform : Platform := {|
  OsW := Sim.Os;
  net_listen := fun _ o => (Sim.listen_error o, o);
  net_address := Sim.bound_address;
  net_close := fun o => o;
  DrvW := Sim.Drv;
  Browser := nat;
  BrowserContext := nat;
  Page := nat;
  chromium_launch := Sim.launch;
  browser_isConnected := fun b d => Sim.mem_nat b (Sim.alive d);
  browser_newContext := Sim.newContext;
  context_newPage := Sim.newPage;
  context_browser := fun c => c;
  page_context := fun pg => pg;
  McpW := Sim.Mcp;
  McpClient := string;
  McpClientManager := unit;
  CallToolResult := unit;
  manager_getClient := Sim.getClient;
  manager_maybeDiscoverMcpServer := Sim.maybeDiscoverMcpServer;
  client_getStatus := Sim.getStatus;
  client_connect := Sim.connect;
  client_callTool := callTool
|}.

Definition tools : @ToolPlatform platform := {|
  client_callToolArgs := fun _ _ _ m => (Rejected (Error "Target closed"), m);
  result_content := fun _ => None;
  JSON_stringify := fun s => (dquote ++ s ++ dquote)%string;
  JSON_stringify_options := fun _ _ => "{}";
  String_of_exn := fun e => match e with Error m => ("Error: " ++ m)%string end
|}.

Definition manager : @McpClientManager platform := tt.

Definition cfg : @Config platform :=
  {| browserAgentSettings := None; getMcpClientManager := Some manager |}.

Definition st0 : @State platform :=
  @fresh platform cfg
         (@mkWorld platform Sim.good_os Sim.good_drv Sim.good_mcp).

End SimBroken.

(** ** More situations in the simulated world *)
Module SimCases.

(** A manager whose first [ensureConnection] launched browser 0 but could
    not open a context: port and browser are stored, page and client are
    not. *)
Definition st_pageless : @State Sim.platform :=
  snd (ensureConnection
         (@fresh Sim.platform Sim.cfg
            (@mkWorld Sim.platform Sim.good_os
               (Sim.mkDrv 0 [] None (Some (Error "Target closed")) None)
               Sim.good_mcp))).

(** A manager whose first [ensureConnection] found its client registered but
    could not connect it. *)
Definition st_refused_once : @State Sim.platform :=
  snd (ensureConnection Sim.st_refused).


(** A ready manager in the world where every tool call is rejected. *)
Definition st_broken_ready : @State SimBroken.platform :=
  snd (@getPage SimBroken.platform SimBroken.st0).

End SimCases.

(** * Properties *)

Section Facts.

Context {P : Platform}.

Local Open Scope list_scope.

(** ** Counting entries of the call log *)

Lemma calls_app (f : event -> bool) (t u : list event) :
  calls f (t ++ u) = calls f t + calls f u.
Proof.
  unfold calls. rewrite filter_app, length_app. reflexivity.
Qed.

Lemma skipn_length_app (t u : list event) : skipn (length t) (t ++ u) = u.
Proof.
  rewrite skipn_app, skipn_all, Nat.sub_diag. reflexivity.
Qed.

(** ** Running the monad *)

Ltac unfold_monad :=
  unfold bind, ret, throw, emit, this, assign,
    read_os, step_os, read_drv, await_drv, read_mcp, await_mcp in *.

Ltac project :=
  cbn [self world trace os drv mcp config mcpClient browser page
       remoteDebuggingPort fst snd set_browser set_page set_mcpClient
       set_remoteDebuggingPort] in *.

(* case analysis on an innermost scrutinee *)
Ltac break_match :=
  match goal with
  | |- context [match ?x with _ => _ end] =>
      lazymatch x with
      | context [match _ with _ => _ end] => fail
      | _ => destruct x eqn:?
      end
  end.

Ltac normalise_trace :=
  rewrite <- ?app_assoc; simpl; rewrite ?calls_app; unfold calls; simpl.

Ltac run := unfold_monad; project; repeat (break_match; project).

(** ** [getFreePort] *)

(** The digits of a number determine it. *)
Lemma Number_toString_inj (n m : N) :
  Number_toString n = Number_toString m -> n = m.
Proof.
  unfold Number_toString. intros H.
  assert (Hu : Some (N.to_uint n) = Some (N.to_uint m)).
  { rewrite <- (NilEmpty.usu (N.to_uint n)), <- (NilEmpty.usu (N.to_uint m)).
    now rewrite H. }
  injection Hu as Hu.
  rewrite <- (Unsigned.of_to n), <- (Unsigned.of_to m). now rewrite Hu.
Qed.

(** C9. One call to [getFreePort] creates one server and listens once on
    port 0, with no retry.  When the server emits an error, the promise
    rejects with that error.  When it listens, the address is read, the server
    is closed, and only then the promise settles: it resolves with the port of
    a numeric address when that port is not 0, and rejects with
    [Error "Failed to get port"] for a pipe name, a missing address or port 0.
    A resolved value is therefore never 0 and always the port the bound
    server reported. *)
Theorem getFreePort_single_attempt (st : State) :
  let r := fst (getFreePort st) in
  let st' := snd (getFreePort st) in
  let listened := net_listen 0 (os (world st)) in
  calls is_createServer (trace st') = calls is_createServer (trace st) + 1 /\
  calls is_listen (trace st') = calls is_listen (trace st) + 1 /\
  self st' = self st /\
  match fst listened with
  | Some e =>
      r = Rejected e /\
      trace st' = trace st ++ [EvCreateServer; EvListen 0]
  | None =>
      trace st' =
        trace st ++ [EvCreateServer; EvListen 0; EvAddress; EvClose] /\
      os (world st') = net_close (snd listened) /\
      match net_address (snd listened) with
      | AddrInfo p =>
          if N.eqb p 0 then r = Rejected (Error "Failed to get port")
          else r = Resolved p
      | _ => r = Rejected (Error "Failed to get port")
      end
  end /\
  match r with
  | Resolved p =>
      N.eqb p 0 = false /\ fst listened = None /\
      net_address (snd listened) = AddrInfo p
  | Rejected _ => True
  end.
Proof.
  unfold getFreePort, truthy. unfold_monad. cbv zeta.
  destruct st as [me [o d m] t]. simpl.
  destruct (net_listen 0 o) as [[e|] o'] eqn:Hl; simpl.
  - normalise_trace. repeat split; lia.
  - destruct (net_address o') as [|path|p] eqn:Ha; simpl;
      [| |destruct (N.eqb p 0) eqn:Hp; simpl];
      normalise_trace; repeat split; auto; lia.
Qed.

(** ** The client name *)

(** C7. The client name is a function of the port alone and determines it:
    two ports give the same name exactly when they are the same port.  The
    name under which [connectMcp] looks up and registers is this function of
    its [port] argument, whatever the state. *)
Theorem clientName_injective (p1 p2 : N) (st : State) :
  (clientName p1 = clientName p2 <-> p1 = p2) /\
  forallb
    (fun ev =>
       match ev with
       | EvGetClient name => String.eqb name (clientName p1)
       | EvMaybeDiscoverMcpServer name _ _ => String.eqb name (clientName p1)
       | _ => true
       end)
    (skipn (length (trace st)) (trace (snd (connectMcp p1 st)))) = true.
Proof.
  split.
  - split.
    + unfold clientName. intros H. simpl in H.
      apply Number_toString_inj. congruence.
    + intros ->. reflexivity.
  - unfold connectMcp. destruct st as [me w t]. run;
      rewrite <- ?app_assoc; cbn [app];
      rewrite ?skipn_length_app, ?skipn_all;
      cbn [forallb]; rewrite ?String.eqb_refl; reflexivity.
Qed.

(** ** The accessors *)

(** C3. With a stored client whose status is ['connected'], [getMcpClient]
    resolves with that client; the manager's fields and the world are as they
    were, and the only call made is the status query itself. *)
Theorem getMcpClient_fast_path (st : State) (c : McpClient) :
  mcpClient (self st) = Some c ->
  client_getStatus c (mcp (world st)) = "connected" ->
  getMcpClient st =
    (Resolved c, mkState (self st) (world st) (trace st ++ [EvGetStatus c])).
Proof.
  intros Hc Hs. unfold getMcpClient. unfold_monad. cbv zeta. simpl.
  rewrite Hc. simpl. rewrite Hs. reflexivity.
Qed.

Lemma getPage_eq (st : State) :
  match page (self st) with
  | Some pg => getPage st = (Resolved pg, st)
  | None =>
      getPage st =
        match ensureBrowserLaunched st with
        | (Rejected e, st') => (Rejected e, st')
        | (Resolved _, st') =>
            match page (self st') with
            | Some pg => (Resolved pg, st')
            | None => (Rejected (Error "Browser page not available"), st')
            end
        end
  end.
Proof.
  unfold getPage. unfold_monad. simpl.
  destruct (page (self st)) as [pg|] eqn:Hp.
  - simpl. rewrite Hp. reflexivity.
  - destruct (ensureBrowserLaunched st) as [[[]|e] st']; [|reflexivity].
    simpl. destruct (page (self st')); reflexivity.
Qed.

(** C6. [getPage] with a stored page resolves with that page and leaves the
    state, call log included, untouched.  Without a stored page it runs
    [ensureBrowserLaunched]: a rejection is passed on; otherwise it resolves
    with the page stored by then, or rejects with
    [Error "Browser page not available"] when there is still none. *)
Theorem getPage_cases (st : State) :
  match page (self st) with
  | Some pg => getPage st = (Resolved pg, st)
  | None =>
      getPage st =
        match ensureBrowserLaunched st with
        | (Rejected e, st') => (Rejected e, st')
        | (Resolved _, st') =>
            match page (self st') with
            | Some pg => (Resolved pg, st')
            | None => (Rejected (Error "Browser page not available"), st')
            end
        end
  end.
Proof.
  exact (getPage_eq st).
Qed.

(** ** The browser tools *)

(** C10. [keyCombination k] is [pressKey k]: same result and same final
    state from every state.  Once [getMcpClient] has resolved with a client,
    the one further call is [callTool('press_key', {key: k})] on that client;
    the result is the ["Pressed key"] message when the tool call resolves and
    the tool's rejection otherwise.  When [getMcpClient] rejects, no tool call
    is made. *)
Theorem keyCombination_is_pressKey (k : string) (st : State) :
  keyCombination k st = pressKey k st /\
  match getMcpClient st with
  | (Resolved c, st1) =>
      trace (snd (keyCombination k st)) =
        trace st1 ++ [EvCallTool c "press_key" [("key", k)]] /\
      fst (keyCombination k st) =
        match fst (client_callTool c "press_key" [("key", k)]
                                   (mcp (world st1))) with
        | Resolved _ =>
            Resolved (mkToolResult
                        (Some ("Pressed key " ++ dquote ++ k ++ dquote)%string)
                        None None)
        | Rejected e => Rejected e
        end
  | (Rejected e, st1) => keyCombination k st = (Rejected e, st1)
  end.
Proof.
  split; [reflexivity|].
  unfold keyCombination, pressKey, bind.
  destruct (getMcpClient st) as [[c|e] st1]; [|reflexivity].
  unfold_monad. simpl.
  destruct (client_callTool c "press_key" [("key", k)] (mcp (world st1)))
    as [[res|e] m']; simpl; split; reflexivity.
Qed.

(** ** What each stage touches *)

Ltac finish :=
  rewrite <- ?app_assoc; cbn [app];
  rewrite ?skipn_length_app, ?skipn_all, ?calls_app, ?filter_app;
  unfold calls; cbn [filter length is_createServer is_listen is_launch
                     is_driver is_register is_connect is_mcp In];
  repeat split; auto; try lia.

Lemma getFreePort_frame (st : State) :
  let st' := snd (getFreePort st) in
  self st' = self st /\
  drv (world st') = drv (world st) /\
  mcp (world st') = mcp (world st) /\
  calls is_driver (trace st') = calls is_driver (trace st) /\
  calls is_launch (trace st') = calls is_launch (trace st) /\
  calls is_mcp (trace st') = calls is_mcp (trace st) /\
  calls is_createServer (trace st') = calls is_createServer (trace st) + 1.
Proof.
  unfold getFreePort. cbv zeta. destruct st as [me [o d m] t].
  run; finish.
Qed.

Lemma portStage_stored (st : State) (p : N) :
  remoteDebuggingPort (self st) = Some p -> truthy p = true ->
  portStage st = (Resolved p, st).
Proof.
  intros Hp Ht. unfold portStage. unfold_monad. cbv zeta. project.
  rewrite Hp, Ht. reflexivity.
Qed.

Lemma portStage_allocates (st : State) :
  (forall p, remoteDebuggingPort (self st) = Some p -> p = 0%N) ->
  portStage st =
    match getFreePort st with
    | (Resolved p, st1) =>
        (Resolved p,
         mkState (set_remoteDebuggingPort (Some p) (self st1)) (world st1)
                 (trace st1))
    | (Rejected e, st1) => (Rejected e, st1)
    end.
Proof.
  intros Hp. unfold portStage. unfold_monad. cbv zeta. project.
  destruct (remoteDebuggingPort (self st)) as [q|].
  - rewrite (Hp q eq_refl). cbn [truthy N.eqb negb].
    destruct (getFreePort st) as [[p|e] st1]; reflexivity.
  - destruct (getFreePort st) as [[p|e] st1]; reflexivity.
Qed.

Lemma getFreePort_truthy (st : State) (p : N) :
  fst (getFreePort st) = Resolved p -> truthy p = true.
Proof.
  unfold getFreePort. cbv zeta. destruct st as [me [o d m] t].
  run; intros H; try discriminate. injection H as <-. assumption.
Qed.

Lemma portStage_frame (st : State) :
  let st' := snd (portStage st) in
  config (self st') = config (self st) /\
  mcpClient (self st') = mcpClient (self st) /\
  browser (self st') = browser (self st) /\
  page (self st') = page (self st) /\
  drv (world st') = drv (world st) /\
  mcp (world st') = mcp (world st) /\
  calls is_driver (trace st') = calls is_driver (trace st) /\
  calls is_launch (trace st') = calls is_launch (trace st) /\
  calls is_mcp (trace st') = calls is_mcp (trace st) /\
  match fst (portStage st) with
  | Resolved p => remoteDebuggingPort (self st') = Some p /\ truthy p = true
  | Rejected _ => remoteDebuggingPort (self st') = remoteDebuggingPort (self st)
  end.
Proof.
  cbv zeta.
  destruct (remoteDebuggingPort (self st)) as [p|] eqn:Hp;
    [destruct (truthy p) eqn:Ht|].
  - rewrite (portStage_stored _ Hp Ht). simpl. repeat split; auto.
  - unfold portStage. unfold_monad. cbv zeta. project. rewrite Hp, Ht.
    pose proof (getFreePort_frame st) as F. cbv zeta in F.
    pose proof (@getFreePort_truthy st) as T.
    destruct (getFreePort st) as [[q|e] st1]; project;
      destruct F as (F1 & F2 & F3 & F4 & F5 & F6 & _); rewrite ?F1;
      repeat split; auto.
  - rewrite portStage_allocates by (intros q Hq; congruence).
    pose proof (getFreePort_frame st) as F. cbv zeta in F.
    pose proof (@getFreePort_truthy st) as T.
    destruct (getFreePort st) as [[q|e] st1]; project;
      destruct F as (F1 & F2 & F3 & F4 & F5 & F6 & _); rewrite ?F1;
      repeat split; auto.
Qed.

Lemma launchBrowser_frame (port : N) (st : State) :
  let st' := snd (launchBrowser port st) in
  config (self st') = config (self st) /\
  mcpClient (self st') = mcpClient (self st) /\
  remoteDebuggingPort (self st') = remoteDebuggingPort (self st) /\
  os (world st') = os (world st) /\
  mcp (world st') = mcp (world st) /\
  calls is_createServer (trace st') = calls is_createServer (trace st) /\
  calls is_mcp (trace st') = calls is_mcp (trace st) /\
  calls is_launch (trace st') = calls is_launch (trace st) + 1 /\
  In (EvLaunch (headless_of (config (self st))) (launchArgs port))
     (skipn (length (trace st)) (trace st')).
Proof.
  unfold launchBrowser. cbv zeta. destruct st as [me [o d m] t].
  run; finish.
Qed.

Lemma launchBrowser_outcome (port : N) (st : State) :
  let r := fst (launchBrowser port st) in
  let st' := snd (launchBrowser port st) in
  match chromium_launch (headless_of (config (self st))) (launchArgs port)
                        (drv (world st)) with
  | (Rejected e, d2) =>
      r = Rejected e /\ browser (self st') = browser (self st) /\
      page (self st') = page (self st) /\ drv (world st') = d2
  | (Resolved b, d2) =>
      browser (self st') = Some b /\
      match browser_newContext b d2 with
      | (Rejected e, d3) =>
          r = Rejected e /\ page (self st') = page (self st) /\
          drv (world st') = d3
      | (Resolved c, d3) =>
          match context_newPage c d3 with
          | (Rejected e, d4) =>
              r = Rejected e /\ page (self st') = page (self st) /\
              drv (world st') = d4
          | (Resolved pg, d4) =>
              r = Resolved tt /\ page (self st') = Some pg /\
              drv (world st') = d4
          end
      end
  end.
Proof.
  unfold launchBrowser. cbv zeta. destruct st as [me [o d m] t].
  run; repeat split; congruence.
Qed.

Lemma browserStage_skip (port : N) (st : State) (b : Browser) :
  browser (self st) = Some b ->
  browser_isConnected b (drv (world st)) = true ->
  browserStage port st =
    (Resolved tt,
     mkState (self st) (world st) (trace st ++ [EvIsConnected b])).
Proof.
  intros Hb Hc. unfold browserStage. unfold_monad. project.
  rewrite Hb. project. rewrite Hc. reflexivity.
Qed.

Lemma browserStage_absent (port : N) (st : State) :
  browser (self st) = None ->
  browserStage port st = launchBrowser port st.
Proof.
  intros Hb. unfold browserStage. unfold_monad. project.
  rewrite Hb. reflexivity.
Qed.

Lemma browserStage_dead (port : N) (st : State) (b : Browser) :
  browser (self st) = Some b ->
  browser_isConnected b (drv (world st)) = false ->
  browserStage port st =
    launchBrowser port
      (mkState (self st) (world st) (trace st ++ [EvIsConnected b])).
Proof.
  intros Hb Hc. unfold browserStage. unfold_monad. project.
  rewrite Hb. project. rewrite Hc. reflexivity.
Qed.

Lemma browserStage_frame (port : N) (st : State) :
  let st' := snd (browserStage port st) in
  config (self st') = config (self st) /\
  mcpClient (self st') = mcpClient (self st) /\
  remoteDebuggingPort (self st') = remoteDebuggingPort (self st) /\
  os (world st') = os (world st) /\
  mcp (world st') = mcp (world st) /\
  calls is_createServer (trace st') = calls is_createServer (trace st) /\
  calls is_mcp (trace st') = calls is_mcp (trace st).
Proof.
  cbv zeta. destruct (browser (self st)) as [b|] eqn:Hb;
    [destruct (browser_isConnected b (drv (world st))) eqn:Hc|].
  - rewrite (browserStage_skip _ _ Hb Hc). project. finish.
  - rewrite (browserStage_dead _ _ Hb Hc).
    pose proof (launchBrowser_frame port
      (mkState (self st) (world st) (trace st ++ [EvIsConnected b]))) as F.
    cbv zeta in F. project.
    destruct F as (F1 & F2 & F3 & F4 & F5 & F6 & F7 & _).
    rewrite F6, F7. finish.
  - rewrite (browserStage_absent _ _ Hb).
    pose proof (launchBrowser_frame port st) as F. cbv zeta in F.
    repeat split; apply F.
Qed.

Lemma connectMcp_frame (port : N) (st : State) :
  let st' := snd (connectMcp port st) in
  config (self st') = config (self st) /\
  browser (self st') = browser (self st) /\
  page (self st') = page (self st) /\
  remoteDebuggingPort (self st') = remoteDebuggingPort (self st) /\
  os (world st') = os (world st) /\
  drv (world st') = drv (world st) /\
  calls is_createServer (trace st') = calls is_createServer (trace st) /\
  calls is_launch (trace st') = calls is_launch (trace st) /\
  calls is_driver (trace st') = calls is_driver (trace st).
Proof.
  unfold connectMcp. cbv zeta. destruct st as [me [o d m] t].
  run; finish.
Qed.

Lemma clientStage_frame (port : N) (st : State) :
  let st' := snd (clientStage port st) in
  config (self st') = config (self st) /\
  browser (self st') = browser (self st) /\
  page (self st') = page (self st) /\
  remoteDebuggingPort (self st') = remoteDebuggingPort (self st) /\
  os (world st') = os (world st) /\
  drv (world st') = drv (world st) /\
  calls is_createServer (trace st') = calls is_createServer (trace st) /\
  calls is_launch (trace st') = calls is_launch (trace st) /\
  calls is_driver (trace st') = calls is_driver (trace st).
Proof.
  cbv zeta. unfold clientStage. unfold_monad. project.
  destruct (mcpClient (self st)) as [c|]; [|apply connectMcp_frame].
  destruct (String.eqb _ _); project; [finish|].
  pose proof (connectMcp_frame port
    (mkState (self st) (world st) (trace st ++ [EvGetStatus c]))) as F.
  cbv zeta in F. project.
  destruct F as (F1 & F2 & F3 & F4 & F5 & F6 & F7 & F8 & F9).
  rewrite F7, F8, F9. finish.
Qed.

Lemma ensureBrowserLaunched_stages (st : State) :
  ensureBrowserLaunched st =
    match portStage st with
    | (Rejected e, st1) => (Rejected e, st1)
    | (Resolved port, st1) =>
        match browserStage port st1 with
        | (Rejected e, st2) => (Rejected e, st2)
        | (Resolved _, st2) => clientStage port st2
        end
    end.
Proof.
  unfold ensureBrowserLaunched, bind.
  destruct (portStage st) as [[port|e] st1]; reflexivity.
Qed.

(** ** The port is allocated once *)

Lemma ensureConnection_stored_port (st : State) (p : N) :
  remoteDebuggingPort (self st) = Some p -> truthy p = true ->
  remoteDebuggingPort (self (snd (ensureConnection st))) = Some p /\
  calls is_createServer (trace (snd (ensureConnection st))) =
    calls is_createServer (trace st).
Proof.
  intros Hp Ht. unfold ensureConnection.
  rewrite ensureBrowserLaunched_stages, (portStage_stored _ Hp Ht).
  pose proof (browserStage_frame p st) as B. cbv zeta in B.
  destruct (browserStage p st) as [[[]|e] st2]; project;
    destruct B as (_ & _ & B3 & _ & _ & B6 & _).
  - pose proof (clientStage_frame p st2) as C. cbv zeta in C.
    destruct C as (_ & _ & _ & C4 & _ & _ & C7 & _).
    rewrite C4, C7, B3, B6. auto.
  - rewrite B3, B6. auto.
Qed.




(** ** A failing allocation *)

(** C4. When no usable port is stored and [getFreePort] rejects with [e],
    [ensureConnection] rejects with the same [e]; the manager's fields, the
    driver's world and the client manager's world are as before, and no call
    to the driver, the client manager or a client was made.  In particular a
    stored browser that reported connected is still stored and still reports
    connected. *)
Theorem allocation_failure_propagates (st : State) (e : exn) :
  (forall q, remoteDebuggingPort (self st) = Some q -> q = 0%N) ->
  fst (getFreePort st) = Rejected e ->
  let st' := snd (ensureConnection st) in
  fst (ensureConnection st) = Rejected e /\
  self st' = self st /\
  drv (world st') = drv (world st) /\
  mcp (world st') = mcp (world st) /\
  calls is_driver (trace st') = calls is_driver (trace st) /\
  calls is_mcp (trace st') = calls is_mcp (trace st) /\
  forall b,
    browser (self st) = Some b ->
    browser_isConnected b (drv (world st)) = true ->
    browser (self st') = Some b /\
    browser_isConnected b (drv (world st')) = true.
Proof.
  intros Hp Hg. cbv zeta. unfold ensureConnection.
  rewrite ensureBrowserLaunched_stages, (portStage_allocates _ Hp).
  pose proof (getFreePort_frame st) as G. cbv zeta in G.
  destruct G as (G1 & G2 & G3 & G4 & _ & G6 & _).
  destruct (getFreePort st) as [[q|e'] st1]; project; [discriminate|].
  injection Hg as ->. rewrite G1, G2. repeat split; auto.
Qed.

(** ** The browser stage *)

Lemma getFreePort_launches (st : State) :
  filter is_launch (trace (snd (getFreePort st))) =
    filter is_launch (trace st).
Proof.
  unfold getFreePort. cbv zeta. destruct st as [me [o d m] t].
  run; finish; rewrite ?app_nil_r; reflexivity.
Qed.

Lemma portStage_launches (st : State) :
  filter is_launch (trace (snd (portStage st))) =
    filter is_launch (trace st).
Proof.
  unfold portStage. unfold_monad. cbv zeta. project.
  pose proof (getFreePort_launches st) as G.
  destruct (remoteDebuggingPort (self st)) as [p|];
    [destruct (truthy p)|]; try reflexivity;
    destruct (getFreePort st) as [[q|e] st1]; exact G.
Qed.

Lemma launchBrowser_launches (port : N) (st : State) :
  filter is_launch (trace (snd (launchBrowser port st))) =
    filter is_launch (trace st)
      ++ [EvLaunch (headless_of (config (self st))) (launchArgs port)].
Proof.
  unfold launchBrowser. cbv zeta. destruct st as [me [o d m] t].
  run; finish; rewrite ?app_nil_r; reflexivity.
Qed.

Lemma connectMcp_launches (port : N) (st : State) :
  filter is_launch (trace (snd (connectMcp port st))) =
    filter is_launch (trace st).
Proof.
  unfold connectMcp. cbv zeta. destruct st as [me [o d m] t].
  run; finish; rewrite ?app_nil_r; reflexivity.
Qed.

Lemma clientStage_launches (port : N) (st : State) :
  filter is_launch (trace (snd (clientStage port st))) =
    filter is_launch (trace st).
Proof.
  unfold clientStage. unfold_monad. project.
  destruct (mcpClient (self st)) as [c|]; [|apply connectMcp_launches].
  destruct (String.eqb _ _); project.
  - finish. apply app_nil_r.
  - rewrite connectMcp_launches. project. finish. apply app_nil_r.
Qed.

Lemma launch_then_client (port : N) (st : State) :
  let r :=
    fst (match launchBrowser port st with
         | (Rejected e, st2) => (Rejected e, st2)
         | (Resolved _, st2) => clientStage port st2
         end) in
  let st' :=
    snd (match launchBrowser port st with
         | (Rejected e, st2) => (Rejected e, st2)
         | (Resolved _, st2) => clientStage port st2
         end) in
  remoteDebuggingPort (self st') = remoteDebuggingPort (self st) /\
  filter is_launch (trace st') =
    filter is_launch (trace st)
      ++ [EvLaunch (headless_of (config (self st))) (launchArgs port)] /\
  match chromium_launch (headless_of (config (self st))) (launchArgs port)
                        (drv (world st)) with
  | (Rejected e, _) =>
      r = Rejected e /\
      browser (self st') = browser (self st) /\
      page (self st') = page (self st)
  | (Resolved b', d2) =>
      browser (self st') = Some b' /\
      match browser_newContext b' d2 with
      | (Rejected e, _) => r = Rejected e /\ page (self st') = page (self st)
      | (Resolved c, d3) =>
          match context_newPage c d3 with
          | (Rejected e, _) =>
              r = Rejected e /\ page (self st') = page (self st)
          | (Resolved pg, _) => page (self st') = Some pg
          end
      end
  end.
Proof.
  cbv zeta.
  pose proof (launchBrowser_frame port st) as F. cbv zeta in F.
  destruct F as (_ & _ & F3 & _).
  pose proof (launchBrowser_launches port st) as L.
  pose proof (launchBrowser_outcome port st) as O. cbv zeta in O.
  destruct (launchBrowser port st) as [[[]|e] st2]; project.
  - pose proof (clientStage_frame port st2) as C. cbv zeta in C.
    destruct C as (_ & C2 & C3 & C4 & _).
    rewrite (clientStage_launches port st2), C2, C3, C4, F3, L.
    repeat split.
    destruct (chromium_launch _ _ _) as [[b'|e] d2].
    + destruct O as [O1 O]. split; [assumption|].
      destruct (browser_newContext b' d2) as [[c|e] d3];
        [|destruct O as [O _]; discriminate O].
      destruct (context_newPage c d3) as [[pg|e] d4];
        [apply O | destruct O as [O _]; discriminate O].
    + destruct O as [O _]. discriminate O.
  - rewrite F3, L. repeat split.
    destruct (chromium_launch _ _ _) as [[b'|e'] d2].
    + destruct O as [O1 O]. split; [assumption|].
      destruct (browser_newContext b' d2) as [[c|e'] d3];
        [|destruct O as (O & Op & _); split; assumption].
      destruct (context_newPage c d3) as [[pg|e'] d4];
        [destruct O as [O _]; discriminate O
        |destruct O as (O & Op & _); split; assumption].
    + destruct O as (O & Ob & Op & _). repeat split; assumption.
Qed.

(** C2 (as the code has it).  Let the port stage of [ensureBrowserLaunched]
    resolve with [port].  With a stored browser that reports connected, no
    launch is made and the stored browser and page stay.  Otherwise exactly
    one launch is made, with [--remote-debugging-port=<port>] among its
    arguments and [port] being the stored port.  If the launch, the context
    and the page are all obtained, the stored browser is the new one and the
    stored page is the page opened from its context, in place of the
    previous one.  If the launch is rejected, [ensureBrowserLaunched] rejects
    with the same error and the stored browser and page are the old ones; if
    the context or the page cannot be opened, it rejects with that error, the
    new browser is stored and no new page is. *)
Theorem browser_stage_launches (st : State) (port : N) :
  fst (portStage st) = Resolved port ->
  let r := fst (ensureBrowserLaunched st) in
  let st' := snd (ensureBrowserLaunched st) in
  let d := drv (world st) in
  let h := headless_of (config (self st)) in
  let live :=
    match browser (self st) with
    | Some b => browser_isConnected b d
    | None => false
    end in
  remoteDebuggingPort (self st') = Some port /\
  if live then
    filter is_launch (trace st') = filter is_launch (trace st) /\
    browser (self st') = browser (self st) /\
    page (self st') = page (self st)
  else
    filter is_launch (trace st') =
      filter is_launch (trace st) ++ [EvLaunch h (launchArgs port)] /\
    In ("--remote-debugging-port=" ++ Number_toString port)%string
       (launchArgs port) /\
    match chromium_launch h (launchArgs port) d with
    | (Rejected e, _) =>
        r = Rejected e /\
        browser (self st') = browser (self st) /\
        page (self st') = page (self st)
    | (Resolved b', d2) =>
        browser (self st') = Some b' /\
        match browser_newContext b' d2 with
        | (Rejected e, _) =>
            r = Rejected e /\ page (self st') = page (self st)
        | (Resolved c, d3) =>
            match context_newPage c d3 with
            | (Rejected e, _) =>
                r = Rejected e /\ page (self st') = page (self st)
            | (Resolved pg, _) => page (self st') = Some pg
            end
        end
    end.
Proof.
  intros Hport. cbv zeta. rewrite ensureBrowserLaunched_stages.
  pose proof (portStage_frame st) as F. cbv zeta in F.
  pose proof (portStage_launches st) as L.
  destruct (portStage st) as [[q|e] st1]; project; [|discriminate].
  injection Hport as ->.
  destruct F as (F1 & _ & F3 & F4 & F5 & _ & _ & _ & _ & F10 & _).
  rewrite <- F1, <- F3, <- F4, <- F5, <- L.
  destruct (browser (self st1)) as [b|] eqn:Hb;
    [destruct (browser_isConnected b (drv (world st1))) eqn:Hc|].
  - rewrite (browserStage_skip _ _ Hb Hc).
    set (st2 := mkState (self st1) (world st1) (trace st1 ++ [EvIsConnected b])).
    pose proof (clientStage_frame port st2) as C. cbv zeta in C.
    destruct C as (_ & C2 & C3 & C4 & _).
    rewrite (clientStage_launches port st2), C2, C3, C4. subst st2. project.
    finish. apply app_nil_r.
  - rewrite (browserStage_dead _ _ Hb Hc).
    set (st2 := mkState (self st1) (world st1) (trace st1 ++ [EvIsConnected b])).
    pose proof (launch_then_client port st2) as T. cbv zeta in T.
    subst st2. project. destruct T as (T1 & T2 & T3).
    rewrite T1, T2, filter_app. cbn [filter is_launch]. rewrite app_nil_r.
    rewrite <- Hb. repeat split; auto. left. reflexivity.
  - rewrite (browserStage_absent _ _ Hb).
    pose proof (launch_then_client port st1) as T. cbv zeta in T.
    destruct T as (T1 & T2 & T3).
    rewrite T1, T2, <- Hb. repeat split; auto. left. reflexivity.
Qed.

(** ** The client stage *)

(** C8 (as the code has it).  [connectMcp port], with a client manager in
    the configuration, looks the client up under [clientName port].  If there
    is none it makes exactly one registration, for command [npx] with
    arguments ending in [--browser-url http://127.0.0.1:<port>], and looks the
    client up again; if there is one it makes no registration.  A client whose
    status is ['connected'] is stored without a connect call.  Otherwise its
    [connect] is called exactly once: when that resolves the client is
    stored, when it rejects the rejection is passed on and the stored client
    is the one from before.  A rejected registration, or a lookup that still
    finds nothing, rejects without any connect call and stores nothing. *)
Theorem connectMcp_registers_and_connects
    (port : N) (st : State) (m : McpClientManager) :
  getMcpClientManager (config (self st)) = Some m ->
  let r := fst (connectMcp port st) in
  let st' := snd (connectMcp port st) in
  let w := mcp (world st) in
  let registration :=
    EvMaybeDiscoverMcpServer
      (clientName port) "npx"
      ["-y"; "chrome-devtools-mcp@latest"; "--browser-url";
       ("http://127.0.0.1:" ++ Number_toString port)%string] in
  let resolved (c : McpClient) (w1 : McpW) : Prop :=
    if String.eqb (client_getStatus c w1) "connected" then
      filter is_connect (trace st') = filter is_connect (trace st) /\
      r = Resolved tt /\ mcpClient (self st') = Some c
    else
      filter is_connect (trace st') =
        filter is_connect (trace st) ++ [EvConnect c] /\
      match fst (client_connect c w1) with
      | Resolved _ => r = Resolved tt /\ mcpClient (self st') = Some c
      | Rejected e =>
          r = Rejected e /\ mcpClient (self st') = mcpClient (self st)
      end in
  let unresolved (e : exn) : Prop :=
    r = Rejected e /\ mcpClient (self st') = mcpClient (self st) /\
    filter is_connect (trace st') = filter is_connect (trace st) in
  match manager_getClient m (clientName port) w with
  | Some c =>
      filter is_register (trace st') = filter is_register (trace st) /\
      resolved c w
  | None =>
      filter is_register (trace st') =
        filter is_register (trace st) ++ [registration] /\
      match manager_maybeDiscoverMcpServer
              m (clientName port) "npx" (mcpArgs port) w with
      | (Rejected e, _) => unresolved e
      | (Resolved _, w1) =>
          match manager_getClient m (clientName port) w1 with
          | Some c => resolved c w1
          | None =>
              unresolved
                (Error "Failed to initialize chrome-devtools MCP client")
          end
      end
  end.
Proof.
  intros Hm. cbv zeta. unfold connectMcp. cbv zeta.
  destruct st as [me [o d w] t]. unfold_monad. project. rewrite Hm.
  run; finish; rewrite ?app_nil_r; try reflexivity; try congruence.
Qed.

(** ** Pages and live browsers *)












End Facts.

(** ** The simulated world at work *)



(** The stored browser 0 has died while its page 0 is stored: one launch on
    the stored port, and browser 1 with its page 1 take their place. *)
Lemma browser_stage_launches_witness :
  fst (portStage Sim.st_dead) = Resolved 54213%N /\
  browser (self Sim.st_dead) = Some 0 /\
  page (self Sim.st_dead) = Some 0 /\
  @browser_isConnected Sim.platform 0 (drv (world Sim.st_dead)) = false /\
  remoteDebuggingPort (self (snd (ensureBrowserLaunched Sim.st_dead)))
    = Some 54213%N /\
  filter is_launch (trace (snd (ensureBrowserLaunched Sim.st_dead))) =
    (filter is_launch (trace Sim.st_dead)
       ++ [EvLaunch false
             ["--remote-debugging-port=54213"; "--window-size=1024,1024"]])%list
  /\
  In "--remote-debugging-port=54213" (launchArgs 54213) /\
  browser (self (snd (ensureBrowserLaunched Sim.st_dead))) = Some 1 /\
  page (self (snd (ensureBrowserLaunched Sim.st_dead))) = Some 1.
Proof.
  assert (H : fst (portStage Sim.st_dead) = Resolved 54213%N)
    by (vm_compute; reflexivity).
  split; [exact H|].
  split; [vm_compute; reflexivity|].
  split; [vm_compute; reflexivity|].
  split; [vm_compute; reflexivity|].
  exact (@browser_stage_launches Sim.platform Sim.st_dead 54213%N H).
Defined.

(** The browser died and no context can be opened: the one launch stores
    browser 1, and page 0 of the dead browser 0 is still the stored page. *)
Lemma browser_stage_keeps_stale_page :
  fst (portStage Sim.st_stale) = Resolved 54213%N /\
  browser (self Sim.st_stale) = Some 0 /\
  @browser_isConnected Sim.platform 0 (drv (world Sim.st_stale)) = false /\
  page (self Sim.st_stale) = Some 0 /\
  fst (ensureBrowserLaunched Sim.st_stale) = Rejected (Error "Target closed") /\
  calls is_launch (trace (snd (ensureBrowserLaunched Sim.st_stale))) =
    calls is_launch (trace Sim.st_stale) + 1 /\
  browser (self (snd (ensureBrowserLaunched Sim.st_stale))) = Some 1 /\
  page (self (snd (ensureBrowserLaunched Sim.st_stale))) = Some 0 /\
  @page_browser Sim.platform 0 = 0.
Proof.
  vm_compute. repeat split.
Qed.

(** A manager that is ready answers [getMcpClient] from its stored client. *)
Lemma getMcpClient_fast_path_witness :
  getMcpClient Sim.st_ready =
    (Resolved "chrome-devtools-54213",
     mkState (self Sim.st_ready) (world Sim.st_ready)
             (trace Sim.st_ready ++ [@EvGetStatus Sim.platform "chrome-devtools-54213"])).
Proof.
  apply (@getMcpClient_fast_path Sim.platform Sim.st_ready);
    reflexivity.
Defined.

(** The probe socket cannot listen: the error comes back and nothing else
    was tried. *)
Lemma allocation_failure_propagates_witness :
  fst (ensureConnection Sim.st_no_port)
    = Rejected (Error "listen EADDRNOTAVAIL") /\
  self (snd (ensureConnection Sim.st_no_port)) = self Sim.st_no_port /\
  calls is_driver (trace (snd (ensureConnection Sim.st_no_port))) = 0 /\
  calls is_mcp (trace (snd (ensureConnection Sim.st_no_port))) = 0.
Proof.
  destruct (@allocation_failure_propagates Sim.platform Sim.st_no_port
              (Error "listen EADDRNOTAVAIL"))
    as (H1 & H2 & _ & _ & H5 & H6 & _).
  - intros q Hq. discriminate Hq.
  - reflexivity.
  - repeat split; assumption.
Defined.



(** No client registered yet and registration does not connect: one
    registration, one connect, client stored. *)
Lemma connectMcp_registers_and_connects_witness :
  getMcpClientManager (config (self Sim.st_unconnected)) = Some tt /\
  filter is_register (trace (snd (connectMcp 54213 Sim.st_unconnected))) =
    [EvMaybeDiscoverMcpServer
       "chrome-devtools-54213" "npx"
       ["-y"; "chrome-devtools-mcp@latest"; "--browser-url";
        "http://127.0.0.1:54213"]] /\
  filter is_connect (trace (snd (connectMcp 54213 Sim.st_unconnected))) =
    [@EvConnect Sim.platform "chrome-devtools-54213"] /\
  fst (connectMcp 54213 Sim.st_unconnected) = Resolved tt /\
  mcpClient (self (snd (connectMcp 54213 Sim.st_unconnected))) =
    Some "chrome-devtools-54213".
Proof.
  split; [reflexivity|].
  exact (@connectMcp_registers_and_connects Sim.platform 54213%N
           Sim.st_unconnected tt eq_refl).
Defined.

(** The registered client is disconnected and refuses to connect: connect is
    called once, the call rejects, and no client is stored. *)
Lemma connect_rejection_stores_nothing :
  @manager_getClient Sim.platform tt (clientName 54213) (mcp (world Sim.st_refused))
    = Some "chrome-devtools-54213" /\
  @client_getStatus Sim.platform "chrome-devtools-54213" (mcp (world Sim.st_refused))
    = "disconnected" /\
  fst (ensureConnection Sim.st_refused)
    = Rejected (Error "connect ECONNREFUSED") /\
  remoteDebuggingPort (self (snd (ensureConnection Sim.st_refused)))
    = Some 54213%N /\
  calls is_connect (trace (snd (ensureConnection Sim.st_refused))) = 1 /\
  calls is_register (trace (snd (ensureConnection Sim.st_refused))) = 0 /\
  mcpClient (self (snd (ensureConnection Sim.st_refused))) = None.
Proof.
  vm_compute. repeat split.
Qed.

(** * Further properties of the manager *)

Section MoreFacts.

Context {P : Platform}.

Local Open Scope list_scope.

Ltac unfold_js :=
  unfold bind, ret, throw, emit, this, assign,
    read_os, step_os, read_drv, await_drv, read_mcp, await_mcp in *.

Ltac fields :=
  cbn [self world trace os drv mcp config mcpClient browser page
       remoteDebuggingPort fst snd set_browser set_page set_mcpClient
       set_remoteDebuggingPort] in *.

Ltac split_match :=
  match goal with
  | |- context [match ?x with _ => _ end] =>
      lazymatch x with
      | context [match _ with _ => _ end] => fail
      | _ => destruct x eqn:?
      end
  end.

Ltac go := unfold_js; fields; repeat (split_match; fields).

(** ** What a resolved stage leaves behind *)

Lemma launchBrowser_browser (port : N) (st : State) :
  let r := fst (launchBrowser port st) in
  let st' := snd (launchBrowser port st) in
  (browser (self st) <> None -> browser (self st') <> None) /\
  (r = Resolved tt -> browser (self st') <> None) /\
  ((page (self st) <> None -> browser (self st) <> None) ->
   page (self st') <> None -> browser (self st') <> None).
Proof.
  cbv zeta.
  pose proof (launchBrowser_outcome port st) as O. cbv zeta in O.
  destruct (chromium_launch _ _ _) as [[b'|e] d2].
  - destruct O as [Ob _]. rewrite Ob.
    repeat split; intros; discriminate.
  - destruct O as (Or & Ob & Op & _). rewrite Or, Ob, Op.
    repeat split; auto. intros H. discriminate H.
Qed.

Lemma browserStage_browser (port : N) (st : State) :
  let r := fst (browserStage port st) in
  let st' := snd (browserStage port st) in
  (browser (self st) <> None -> browser (self st') <> None) /\
  (r = Resolved tt -> browser (self st') <> None) /\
  ((page (self st) <> None -> browser (self st) <> None) ->
   page (self st') <> None -> browser (self st') <> None).
Proof.
  cbv zeta. destruct (browser (self st)) as [b|] eqn:Hb;
    [destruct (browser_isConnected b (drv (world st))) eqn:Hc|].
  - rewrite (browserStage_skip _ _ Hb Hc). fields. rewrite Hb.
    repeat split; intros; discriminate.
  - rewrite (browserStage_dead _ _ Hb Hc).
    pose proof (launchBrowser_browser port
      (mkState (self st) (world st) (trace st ++ [EvIsConnected b]))) as L.
    cbv zeta in L. fields. rewrite Hb in L. exact L.
  - rewrite (browserStage_absent _ _ Hb).
    pose proof (launchBrowser_browser port st) as L. cbv zeta in L.
    rewrite Hb in L. exact L.
Qed.

Lemma connectMcp_client (port : N) (st : State) :
  fst (connectMcp port st) = Resolved tt ->
  mcpClient (self (snd (connectMcp port st))) <> None.
Proof.
  unfold connectMcp. cbv zeta. destruct st as [me [o d m] t].
  go; intros H; try discriminate H; intros H'; discriminate H'.
Qed.

Lemma clientStage_cases (port : N) (st : State) :
  (exists c, mcpClient (self st) = Some c /\
             client_getStatus c (mcp (world st)) = "connected"%string /\
             clientStage port st =
               (Resolved tt,
                mkState (self st) (world st) (trace st ++ [EvGetStatus c]))) \/
  (exists st0, self st0 = self st /\ world st0 = world st /\
               (trace st0 = trace st \/
                exists c, trace st0 = trace st ++ [EvGetStatus c]) /\
               clientStage port st = connectMcp port st0).
Proof.
  unfold clientStage. unfold_js. fields.
  destruct (mcpClient (self st)) as [c|] eqn:Hc.
  - destruct (String.eqb (client_getStatus c (mcp (world st))) "connected")
      eqn:Hs.
    + left. exists c. apply String.eqb_eq in Hs. auto.
    + right.
      exists (mkState (self st) (world st) (trace st ++ [EvGetStatus c])).
      repeat split. right. exists c. reflexivity.
  - right. exists st. auto.
Qed.

Lemma clientStage_client (port : N) (st : State) :
  fst (clientStage port st) = Resolved tt ->
  mcpClient (self (snd (clientStage port st))) <> None.
Proof.
  destruct (clientStage_cases port st)
    as [(c & Hc & _ & E) | (st0 & _ & _ & _ & E)]; rewrite E.
  - fields. intros _. rewrite Hc. discriminate.
  - apply connectMcp_client.
Qed.

(** X1. On a manager that is ready (a non-zero port stored, the stored
    browser connected, the stored client connected) [ensureConnection]
    resolves and does nothing but ask the browser and the client whether they
    are connected: fields and world are unchanged and the log grows by these
    two queries. *)
Theorem ensureConnection_ready_noop
    (st : State) (p : N) (b : Browser) (c : McpClient) :
  remoteDebuggingPort (self st) = Some p -> truthy p = true ->
  browser (self st) = Some b ->
  browser_isConnected b (drv (world st)) = true ->
  mcpClient (self st) = Some c ->
  client_getStatus c (mcp (world st)) = "connected"%string ->
  ensureConnection st =
    (Resolved tt,
     mkState (self st) (world st)
             (trace st ++ [EvIsConnected b; EvGetStatus c])).
Proof.
  intros Hp Ht Hb Hl Hc Hs. unfold ensureConnection.
  rewrite ensureBrowserLaunched_stages, (portStage_stored _ Hp Ht),
    (browserStage_skip _ _ Hb Hl).
  unfold clientStage. unfold_js. fields. rewrite Hc. fields. rewrite Hs.
  cbn [String.eqb Ascii.eqb Bool.eqb]. rewrite <- app_assoc. reflexivity.
Qed.

Lemma ensureBrowserLaunched_resolved (st : State) :
  fst (ensureBrowserLaunched st) = Resolved tt ->
  let me := self (snd (ensureBrowserLaunched st)) in
  (exists p, remoteDebuggingPort me = Some p /\ p <> 0%N) /\
  browser me <> None /\
  mcpClient me <> None.
Proof.
  cbv zeta. rewrite ensureBrowserLaunched_stages.
  pose proof (portStage_frame st) as F. cbv zeta in F.
  destruct (portStage st) as [[port|e] st1]; fields; [|discriminate].
  destruct F as (_ & _ & _ & _ & _ & _ & _ & _ & _ & Fp & Ft).
  pose proof (browserStage_frame port st1) as B. cbv zeta in B.
  pose proof (browserStage_browser port st1) as Bb. cbv zeta in Bb.
  destruct (browserStage port st1) as [[[]|e] st2]; fields; [|discriminate].
  destruct B as (_ & _ & B3 & _). destruct Bb as (_ & Bb & _).
  pose proof (clientStage_frame port st2) as C. cbv zeta in C.
  pose proof (clientStage_client port st2) as Cc.
  destruct C as (_ & C2 & _ & C4 & _).
  intros H. repeat split.
  - exists port. rewrite C4, B3. split; [assumption|].
    unfold truthy in Ft. apply negb_true_iff, N.eqb_neq in Ft. assumption.
  - rewrite C2. auto.
  - auto.
Qed.

(** X2. When [ensureConnection] resolves, a non-zero port, a browser and a
    client are stored. *)
Theorem ensureConnection_resolved_ready (st : State) :
  fst (ensureConnection st) = Resolved tt ->
  let me := self (snd (ensureConnection st)) in
  (exists p, remoteDebuggingPort me = Some p /\ p <> 0%N) /\
  browser me <> None /\
  mcpClient me <> None.
Proof.
  exact (ensureBrowserLaunched_resolved st).
Qed.

(** ** [getMcpClient] *)

Lemma getMcpClient_cases (st : State) :
  (exists c, mcpClient (self st) = Some c /\
             client_getStatus c (mcp (world st)) = "connected"%string /\
             getMcpClient st =
               (Resolved c,
                mkState (self st) (world st) (trace st ++ [EvGetStatus c]))) \/
  (exists st0, self st0 = self st /\ world st0 = world st /\
     (st0 = st \/
      exists c, mcpClient (self st) = Some c /\
                st0 = mkState (self st) (world st)
                              (trace st ++ [EvGetStatus c])) /\
     getMcpClient st =
       match ensureConnection st0 with
       | (Rejected e, st') => (Rejected e, st')
       | (Resolved _, st') =>
           match mcpClient (self st') with
           | Some c => (Resolved c, st')
           | None =>
               (Rejected
                  (Error "Failed to initialize chrome-devtools MCP client"),
                st')
           end
       end).
Proof.
  assert (slow : forall st0,
    (ensureConnection ;;
     me' <- this ;;
     match mcpClient me' with
     | Some c => ret c
     | None =>
         throw (Error "Failed to initialize chrome-devtools MCP client")
     end) st0 =
    match ensureConnection st0 with
    | (Rejected e, st') => (Rejected e, st')
    | (Resolved _, st') =>
        match mcpClient (self st') with
        | Some c => (Resolved c, st')
        | None =>
            (Rejected
               (Error "Failed to initialize chrome-devtools MCP client"),
             st')
        end
    end).
  { intros st0. unfold bind at 1.
    destruct (ensureConnection st0) as [[[]|e] st']; [|reflexivity].
    unfold_js. fields. destruct (mcpClient (self st')); reflexivity. }
  unfold getMcpClient. cbv zeta.
  match type of slow with
  | forall st0, ?m st0 = _ => set (slowm := m) in *
  end.
  unfold bind, this, emit, read_mcp, ret. fields.
  destruct (mcpClient (self st)) as [c|] eqn:Hc.
  - destruct (String.eqb (client_getStatus c (mcp (world st))) "connected")
      eqn:Hs.
    + left. exists c. apply String.eqb_eq in Hs. auto.
    + right.
      exists (mkState (self st) (world st) (trace st ++ [EvGetStatus c])).
      repeat split; [right; exists c; auto | apply slow].
  - right. exists st. repeat split; [left; reflexivity | apply slow].
Qed.

(** X3. [getMcpClient] resolves only with the client that is stored when it
    returns, and it rejects only with a rejection of [ensureConnection]: its
    own ["Failed to initialize chrome-devtools MCP client"] after a resolved
    [ensureConnection] is never reached, because a resolved
    [ensureConnection] always leaves a client stored. *)
Theorem getMcpClient_outcome (st : State) :
  match fst (getMcpClient st) with
  | Resolved c => mcpClient (self (snd (getMcpClient st))) = Some c
  | Rejected e =>
      fst (ensureConnection st) = Rejected e \/
      exists c,
        mcpClient (self st) = Some c /\
        fst (ensureConnection
               (mkState (self st) (world st) (trace st ++ [EvGetStatus c])))
          = Rejected e
  end.
Proof.
  destruct (getMcpClient_cases st)
    as [(c & Hc & _ & E) | (st0 & _ & _ & Hst0 & E)]; rewrite E; fields.
  - assumption.
  - pose proof (ensureBrowserLaunched_resolved st0) as R. cbv zeta in R.
    unfold ensureConnection in *.
    assert (Hrej : forall e, fst (ensureBrowserLaunched st0) = Rejected e ->
      fst (ensureBrowserLaunched st) = Rejected e \/
      exists c,
        mcpClient (self st) = Some c /\
        fst (ensureBrowserLaunched
               (mkState (self st) (world st) (trace st ++ [EvGetStatus c])))
          = Rejected e).
    { intros e He. destruct Hst0 as [-> | (c & Hc & ->)]; [left; assumption|].
      right. exists c. auto. }
    destruct (ensureBrowserLaunched st0) as [[[]|e] st']; fields.
    + destruct (R eq_refl) as (_ & _ & Hc).
      destruct (mcpClient (self st')) as [c|] eqn:Hm; fields;
        [exact Hm | contradiction].
    + apply Hrej. reflexivity.
Qed.

(** ** Fail-fast order of the stages *)

(** X4. When the port stage resolves and the browser stage rejects,
    [ensureConnection] rejects with the browser stage's error without
    entering the client stage: no call to the client manager or to a client
    is made, their world is untouched and the stored client stays. *)
Theorem browser_failure_skips_client_stage
    (st : State) (port : N) (e : exn) :
  fst (portStage st) = Resolved port ->
  fst (browserStage port (snd (portStage st))) = Rejected e ->
  let st' := snd (ensureConnection st) in
  fst (ensureConnection st) = Rejected e /\
  calls is_mcp (trace st') = calls is_mcp (trace st) /\
  mcp (world st') = mcp (world st) /\
  mcpClient (self st') = mcpClient (self st).
Proof.
  intros Hp Hb. cbv zeta. unfold ensureConnection.
  rewrite ensureBrowserLaunched_stages.
  pose proof (portStage_frame st) as F. cbv zeta in F.
  destruct (portStage st) as [[q|e0] st1]; fields; [|discriminate].
  injection Hp as ->.
  destruct F as (_ & F2 & _ & _ & _ & F6 & _ & _ & F9 & _).
  pose proof (browserStage_frame port st1) as B. cbv zeta in B.
  destruct (browserStage port st1) as [[[]|e1] st2]; fields; [discriminate|].
  injection Hb as ->.
  destruct B as (_ & B2 & _ & _ & B5 & _ & B7).
  rewrite B7, B5, B2, F9, F6, F2. auto.
Qed.

(** ** The stored port under all public methods *)

Lemma getMcpClient_state (st : State) :
  (exists c, snd (getMcpClient st) =
               mkState (self st) (world st) (trace st ++ [EvGetStatus c])) \/
  (exists st0, self st0 = self st /\ world st0 = world st /\
     (trace st0 = trace st \/ exists c, trace st0 = trace st ++ [EvGetStatus c]) /\
     snd (getMcpClient st) = snd (ensureBrowserLaunched st0)).
Proof.
  destruct (getMcpClient_cases st)
    as [(c & _ & _ & E) | (st0 & Hs & Hw & Hst0 & E)]; rewrite E.
  - left. exists c. reflexivity.
  - right. exists st0. repeat split; auto.
    + destruct Hst0 as [-> | (c & _ & ->)]; [left; reflexivity|].
      right. exists c. reflexivity.
    + unfold ensureConnection.
      destruct (ensureBrowserLaunched st0) as [[[]|e] st']; fields;
        [|reflexivity].
      destruct (mcpClient (self st')); reflexivity.
Qed.

Lemma getPage_state (st : State) :
  snd (getPage st) = st \/ snd (getPage st) = snd (ensureBrowserLaunched st).
Proof.
  pose proof (getPage_eq st) as E.
  destruct (page (self st)); rewrite E; [left; reflexivity|]. right.
  destruct (ensureBrowserLaunched st) as [[[]|e] st']; fields; [|reflexivity].
  destruct (page (self st')); reflexivity.
Qed.

Lemma calls_status (f : event -> bool) (t : list event) (c : McpClient) :
  f (EvGetStatus c) = false -> calls f (t ++ [EvGetStatus c]) = calls f t.
Proof.
  intros H. rewrite calls_app. unfold calls at 2. cbn [filter]. rewrite H.
  cbn [length]. lia.
Qed.

Lemma invoke_stored_port (m : method) (st : State) (p : N) :
  remoteDebuggingPort (self st) = Some p -> truthy p = true ->
  remoteDebuggingPort (self (invoke m st)) = Some p /\
  calls is_createServer (trace (invoke m st)) =
    calls is_createServer (trace st).
Proof.
  intros Hp Ht. destruct m; cbn [invoke].
  - apply ensureConnection_stored_port; assumption.
  - destruct (getMcpClient_state st)
      as [(c & E) | (st0 & Hs & Hw & Htr & E)]; rewrite E; fields.
    + split; [assumption|]. apply calls_status. reflexivity.
    + assert (Hp0 : remoteDebuggingPort (self st0) = Some p)
        by (rewrite Hs; assumption).
      destruct (ensureConnection_stored_port _ Hp0 Ht) as [H1 H2].
      unfold ensureConnection in *. rewrite H1, H2. split; [reflexivity|].
      destruct Htr as [-> | (c & ->)]; [reflexivity|].
      apply calls_status. reflexivity.
  - destruct (getPage_state st) as [E | E]; rewrite E; [auto|].
    apply (ensureConnection_stored_port _ Hp Ht).
Qed.

(** X6. Once a non-zero port is stored, no sequence of awaited calls to
    [ensureConnection], [getMcpClient] and [getPage], resolved or rejected,
    changes it or calls the port allocator again. *)
Theorem stored_port_is_kept (ms : list method) (st : State) (p : N) :
  remoteDebuggingPort (self st) = Some p -> p <> 0%N ->
  remoteDebuggingPort (self (invoke_all ms st)) = Some p /\
  allocations (trace (invoke_all ms st)) = allocations (trace st).
Proof.
  intros Hp Hnz.
  assert (Ht : truthy p = true)
    by (unfold truthy; apply negb_true_iff, N.eqb_neq; assumption).
  clear Hnz. unfold allocations, invoke_all. revert st Hp.
  induction ms as [|m ms IH]; intros st Hp; cbn [fold_left]; [auto|].
  destruct (invoke_stored_port m _ Hp Ht) as [Hp' Hc].
  destruct (IH _ Hp') as [Hp'' Hc']. rewrite Hp'', Hc', Hc. auto.
Qed.

(** ** The order in which the fields get filled *)

Lemma in_dependency_order_new (c : Config) :
  in_dependency_order (new_BrowserManager c).
Proof.
  unfold in_dependency_order, new_BrowserManager. cbn.
  repeat split; intros; try discriminate; contradiction.
Qed.

Lemma ensureBrowserLaunched_order (st : State) :
  in_dependency_order (self st) ->
  in_dependency_order (self (snd (ensureBrowserLaunched st))).
Proof.
  unfold in_dependency_order. intros (I1 & I2 & I3 & I4).
  rewrite ensureBrowserLaunched_stages.
  pose proof (portStage_frame st) as F. cbv zeta in F.
  destruct (portStage st) as [[port|e] st1]; fields;
    destruct F as (_ & F2 & F3 & F4 & _ & _ & _ & _ & _ & F10).
  2:{ rewrite F2, F3, F4, F10. auto. }
  destruct F10 as [Fp Ft].
  assert (Hnz : port <> 0%N)
    by (unfold truthy in Ft; apply negb_true_iff, N.eqb_neq in Ft; assumption).
  pose proof (browserStage_frame port st1) as B. cbv zeta in B.
  pose proof (browserStage_browser port st1) as Bb. cbv zeta in Bb.
  destruct B as (_ & B2 & B3 & _). destruct Bb as (Ba & Bb & Bc).
  assert (J1 : forall q, remoteDebuggingPort
                 (self (snd (browserStage port st1))) = Some q -> q <> 0%N)
    by (intros q Hq; rewrite B3, Fp in Hq; congruence).
  assert (J2 : remoteDebuggingPort (self (snd (browserStage port st1)))
               <> None) by (rewrite B3, Fp; discriminate).
  assert (J3 : mcpClient (self (snd (browserStage port st1))) <> None ->
               browser (self (snd (browserStage port st1))) <> None)
    by (rewrite B2, F2; intros H; apply Ba; rewrite F3; auto).
  assert (J4 : page (self (snd (browserStage port st1))) <> None ->
               browser (self (snd (browserStage port st1))) <> None)
    by (apply Bc; rewrite F3, F4; assumption).
  destruct (browserStage port st1) as [[[]|e] st2]; fields.
  2:{ repeat split; auto. }
  pose proof (clientStage_frame port st2) as C. cbv zeta in C.
  destruct C as (_ & C2 & C3 & C4 & _).
  rewrite C2, C3, C4. repeat split; auto.
Qed.

Lemma invoke_order (m : method) (st : State) :
  in_dependency_order (self st) -> in_dependency_order (self (invoke m st)).
Proof.
  intros I. destruct m; cbn [invoke].
  - apply ensureBrowserLaunched_order. assumption.
  - destruct (getMcpClient_state st)
      as [(c & E) | (st0 & Hs & _ & _ & E)]; rewrite E; fields;
      [assumption|].
    apply ensureBrowserLaunched_order. rewrite Hs. assumption.
  - destruct (getPage_state st) as [E | E]; rewrite E; [assumption|].
    apply ensureBrowserLaunched_order. assumption.
Qed.

Lemma reachable_order (st : State) :
  reachable st -> in_dependency_order (self st).
Proof.
  intros R. induction R as [c w|st R IH|st R IH|st R IH].
  - apply in_dependency_order_new.
  - apply (invoke_order EnsureConnection). assumption.
  - apply (invoke_order GetMcpClient). assumption.
  - apply (invoke_order GetPage). assumption.
Qed.

(** X5. In every state a new manager reaches through awaited calls to its
    public methods, resolved or rejected, the fields are filled in dependency
    order: a stored port is never 0, a stored browser comes with a stored
    port, and a stored client or a stored page comes with a stored
    browser. *)
Theorem fields_in_dependency_order (st : State) :
  reachable st ->
  (forall p, remoteDebuggingPort (self st) = Some p -> p <> 0%N) /\
  (browser (self st) <> None -> remoteDebuggingPort (self st) <> None) /\
  (mcpClient (self st) <> None -> browser (self st) <> None) /\
  (page (self st) <> None -> browser (self st) <> None).
Proof.
  exact (@reachable_order st).
Qed.

(** ** One port for everything that is logged *)

Ltac log_tail :=
  first
    [ exists []; split; [symmetry; apply app_nil_r | constructor]
    | eexists; split;
      [ rewrite <- ?app_assoc; cbn [app]; reflexivity
      | repeat constructor; cbn [bound_to portless]; auto ] ].

Lemma portless_bound (p : N) (u : list event) :
  Forall portless u -> Forall (bound_to p) u.
Proof.
  apply Forall_impl. intros ev. destruct ev; cbn; auto; contradiction.
Qed.

Lemma getFreePort_log (st : State) :
  exists u, trace (snd (getFreePort st)) = trace st ++ u /\ Forall portless u.
Proof.
  unfold getFreePort. cbv zeta. destruct st as [me [o d m] t].
  go; log_tail.
Qed.

Lemma portStage_log (st : State) :
  exists u, trace (snd (portStage st)) = trace st ++ u /\ Forall portless u.
Proof.
  unfold portStage. unfold_js. cbv zeta. fields.
  pose proof (getFreePort_log st) as G.
  destruct (remoteDebuggingPort (self st)) as [p|];
    [destruct (truthy p)|]; fields;
    try (destruct (getFreePort st) as [[q|e] st1]; exact G).
  exists []. split; [symmetry; apply app_nil_r | constructor].
Qed.

Lemma launchBrowser_log (port : N) (st : State) :
  exists u, trace (snd (launchBrowser port st)) = trace st ++ u /\
            Forall (bound_to port) u.
Proof.
  unfold launchBrowser. cbv zeta. destruct st as [me [o d m] t].
  go; log_tail.
Qed.

Lemma browserStage_log (port : N) (st : State) :
  exists u, trace (snd (browserStage port st)) = trace st ++ u /\
            Forall (bound_to port) u.
Proof.
  destruct (browser (self st)) as [b|] eqn:Hb;
    [destruct (browser_isConnected b (drv (world st))) eqn:Hc|].
  - rewrite (browserStage_skip _ _ Hb Hc). fields. log_tail.
  - rewrite (browserStage_dead _ _ Hb Hc).
    destruct (launchBrowser_log port
      (mkState (self st) (world st) (trace st ++ [EvIsConnected b])))
      as (u & E & Hu).
    fields. exists (EvIsConnected b :: u). split.
    + rewrite E, <- app_assoc. reflexivity.
    + constructor; [exact I | assumption].
  - rewrite (browserStage_absent _ _ Hb). apply launchBrowser_log.
Qed.

Lemma connectMcp_log (port : N) (st : State) :
  exists u, trace (snd (connectMcp port st)) = trace st ++ u /\
            Forall (bound_to port) u.
Proof.
  unfold connectMcp. cbv zeta. destruct st as [me [o d m] t].
  go; log_tail.
Qed.

Lemma clientStage_log (port : N) (st : State) :
  exists u, trace (snd (clientStage port st)) = trace st ++ u /\
            Forall (bound_to port) u.
Proof.
  destruct (clientStage_cases port st)
    as [(c & _ & _ & E) | (st0 & _ & _ & Htr & E)]; rewrite E.
  - fields. log_tail.
  - destruct (connectMcp_log port st0) as (u & Eu & Hu).
    destruct Htr as [Htr | (c & Htr)]; rewrite Htr in Eu.
    + exists u. auto.
    + exists (EvGetStatus c :: u). split.
      * rewrite Eu, <- app_assoc. reflexivity.
      * constructor; [exact I | assumption].
Qed.

Lemma later_stages_single_port (port : N) (st1 : State) :
  remoteDebuggingPort (self st1) = Some port ->
  Forall (bound_to port) (trace st1) ->
  single_port
    (snd (match browserStage port st1 with
          | (Rejected e, st2) => (Rejected e, st2)
          | (Resolved _, st2) => clientStage port st2
          end)).
Proof.
  intros Hp Hb. unfold single_port.
  pose proof (browserStage_frame port st1) as B. cbv zeta in B.
  destruct (browserStage_log port st1) as (u2 & E2 & H2).
  destruct B as (_ & _ & B3 & _).
  destruct (browserStage port st1) as [[[]|e] st2]; fields.
  - pose proof (clientStage_frame port st2) as C. cbv zeta in C.
    destruct (clientStage_log port st2) as (u3 & E3 & H3).
    destruct C as (_ & _ & _ & C4 & _).
    rewrite C4, B3, Hp, E3, E2. repeat (apply Forall_app; split); assumption.
  - rewrite B3, Hp, E2. apply Forall_app; split; assumption.
Qed.

Lemma ensureBrowserLaunched_single_port (st : State) :
  (forall p, remoteDebuggingPort (self st) = Some p -> p <> 0%N) ->
  single_port st -> single_port (snd (ensureBrowserLaunched st)).
Proof.
  intros Hnz S. rewrite ensureBrowserLaunched_stages.
  destruct (remoteDebuggingPort (self st)) as [p|] eqn:Hp.
  - assert (Ht : truthy p = true).
    { unfold truthy. apply negb_true_iff, N.eqb_neq, Hnz. reflexivity. }
    rewrite (portStage_stored _ Hp Ht).
    apply later_stages_single_port; [assumption|].
    unfold single_port in S. rewrite Hp in S. assumption.
  - unfold single_port in S. rewrite Hp in S.
    pose proof (portStage_frame st) as F. cbv zeta in F.
    destruct (portStage_log st) as (u1 & E1 & H1).
    destruct F as (_ & _ & _ & _ & _ & _ & _ & _ & _ & F10).
    destruct (portStage st) as [[port|e] st1]; fields.
    + destruct F10 as [Fp _].
      apply later_stages_single_port; [assumption|].
      rewrite E1. apply Forall_app; split; apply portless_bound; assumption.
    + unfold single_port. rewrite F10, Hp, E1.
      apply Forall_app; split; assumption.
Qed.

Lemma single_port_status (st st0 : State) :
  self st0 = self st ->
  (trace st0 = trace st \/ exists c, trace st0 = trace st ++ [EvGetStatus c]) ->
  single_port st -> single_port st0.
Proof.
  unfold single_port. intros -> Htr S.
  destruct Htr as [-> | (c & ->)]; [assumption|].
  destruct (remoteDebuggingPort (self st));
    (apply Forall_app; split; [assumption | repeat constructor]).
Qed.

Lemma reachable_single_port (st : State) :
  reachable st -> single_port st.
Proof.
  intros R. induction R as [c w|st R IH|st R IH|st R IH].
  - unfold single_port. cbn. constructor.
  - apply ensureBrowserLaunched_single_port; [|assumption].
    apply (reachable_order R).
  - destruct (getMcpClient_state st)
      as [(c & E) | (st0 & Hs & _ & Htr & E)]; rewrite E.
    + apply single_port_status with (st := st); auto.
      right. exists c. reflexivity.
    + apply ensureBrowserLaunched_single_port.
      * rewrite Hs. apply (reachable_order R).
      * apply single_port_status with (st := st); assumption.
  - destruct (getPage_state st) as [E | E]; rewrite E; [assumption|].
    apply ensureBrowserLaunched_single_port; [|assumption].
    apply (reachable_order R).
Qed.

(** X7. In every state a new manager reaches through awaited calls to its
    public methods, everything in the log is about the one stored port [p]:
    each launch carried [--remote-debugging-port=p], each lookup in the client
    registry asked for [chrome-devtools-p], each registration was for that
    name with [--browser-url http://127.0.0.1:p].  While no port is stored,
    no launch, lookup or registration has been made at all. *)
Theorem log_names_one_port (st : State) :
  reachable st ->
  match remoteDebuggingPort (self st) with
  | Some p => Forall (bound_to p) (trace st)
  | None => Forall portless (trace st)
  end.
Proof.
  exact (@reachable_single_port st).
Qed.

(** ** A browser without a page *)

Lemma getPage_pageless (st : State) (p : N) (b : Browser) :
  remoteDebuggingPort (self st) = Some p -> truthy p = true ->
  browser (self st) = Some b ->
  browser_isConnected b (drv (world st)) = true ->
  page (self st) = None ->
  let st2 := mkState (self st) (world st) (trace st ++ [EvIsConnected b]) in
  getPage st =
    match clientStage p st2 with
    | (Resolved _, st') =>
        (Rejected (Error "Browser page not available"), st')
    | (Rejected e, st') => (Rejected e, st')
    end.
Proof.
  intros Hp Ht Hb Hl Hpg. cbv zeta.
  pose proof (getPage_eq st) as E. rewrite Hpg in E. rewrite E.
  rewrite ensureBrowserLaunched_stages, (portStage_stored _ Hp Ht),
    (browserStage_skip _ _ Hb Hl).
  set (st2 := mkState (self st) (world st) (trace st ++ [EvIsConnected b])).
  pose proof (clientStage_frame p st2) as C. cbv zeta in C.
  destruct C as (_ & _ & C3 & _).
  destruct (clientStage p st2) as [[[]|e] st']; fields; [|reflexivity].
  subst st2. fields. rewrite C3, Hpg. reflexivity.
Qed.

(** X8. With a non-zero port stored, a stored browser that reports connected
    and no page stored, [getPage] cannot succeed: it launches nothing, opens
    no page and rejects, with the client stage's own error if that stage
    rejects and with ["Browser page not available"] if it resolves.
    Afterwards there is still no page and the same browser is stored, so the
    next [getPage] meets the same situation for as long as the browser
    reports connected. *)
Theorem getPage_needs_a_relaunch (st : State) (p : N) (b : Browser) :
  remoteDebuggingPort (self st) = Some p -> p <> 0%N ->
  browser (self st) = Some b ->
  browser_isConnected b (drv (world st)) = true ->
  page (self st) = None ->
  let st' := snd (getPage st) in
  fst (getPage st) =
    match fst (clientStage p (mkState (self st) (world st)
                                      (trace st ++ [EvIsConnected b]))) with
    | Resolved _ => Rejected (Error "Browser page not available")
    | Rejected e => Rejected e
    end /\
  page (self st') = None /\
  browser (self st') = Some b /\
  remoteDebuggingPort (self st') = Some p /\
  drv (world st') = drv (world st) /\
  filter is_launch (trace st') = filter is_launch (trace st).
Proof.
  intros Hp Hnz Hb Hl Hpg. cbv zeta.
  assert (Ht : truthy p = true)
    by (unfold truthy; apply negb_true_iff, N.eqb_neq; assumption).
  rewrite (getPage_pageless _ Hp Ht Hb Hl Hpg).
  set (st2 := mkState (self st) (world st) (trace st ++ [EvIsConnected b])).
  pose proof (clientStage_frame p st2) as C. cbv zeta in C.
  pose proof (clientStage_launches p st2) as L.
  destruct C as (_ & C2 & C3 & C4 & _ & C6 & _).
  assert (L' : filter is_launch (trace st2) = filter is_launch (trace st)).
  { subst st2. fields. rewrite filter_app. cbn [filter is_launch].
    apply app_nil_r. }
  destruct (clientStage p st2) as [[[]|e] st']; fields;
    rewrite C2, C3, C4, C6, L, L'; subst st2; fields;
    (split; [reflexivity|]); auto.
Qed.

(** ** Nothing is created twice *)

Lemma ensureBrowserLaunched_live_browser (st : State) (p : N) (b : Browser) :
  remoteDebuggingPort (self st) = Some p -> truthy p = true ->
  browser (self st) = Some b ->
  browser_isConnected b (drv (world st)) = true ->
  let st' := snd (ensureBrowserLaunched st) in
  remoteDebuggingPort (self st') = Some p /\
  browser (self st') = Some b /\
  page (self st') = page (self st) /\
  drv (world st') = drv (world st) /\
  filter is_launch (trace st') = filter is_launch (trace st).
Proof.
  intros Hp Ht Hb Hl. cbv zeta.
  rewrite ensureBrowserLaunched_stages, (portStage_stored _ Hp Ht),
    (browserStage_skip _ _ Hb Hl).
  set (st2 := mkState (self st) (world st) (trace st ++ [EvIsConnected b])).
  pose proof (clientStage_frame p st2) as C. cbv zeta in C.
  pose proof (clientStage_launches p st2) as L.
  destruct C as (_ & C2 & C3 & C4 & _ & C6 & _).
  rewrite C2, C3, C4, C6, L. subst st2. fields.
  rewrite filter_app. cbn [filter is_launch]. rewrite app_nil_r. auto.
Qed.

Lemma invoke_live_browser (m : method) (st : State) (p : N) (b : Browser) :
  remoteDebuggingPort (self st) = Some p -> truthy p = true ->
  browser (self st) = Some b ->
  browser_isConnected b (drv (world st)) = true ->
  let st' := invoke m st in
  remoteDebuggingPort (self st') = Some p /\
  browser (self st') = Some b /\
  page (self st') = page (self st) /\
  drv (world st') = drv (world st) /\
  filter is_launch (trace st') = filter is_launch (trace st).
Proof.
  intros Hp Ht Hb Hl. cbv zeta.
  assert (status : forall c,
    filter is_launch (trace st ++ [EvGetStatus c])
      = filter is_launch (trace st)).
  { intros c. rewrite filter_app. cbn [filter is_launch]. apply app_nil_r. }
  destruct m; cbn [invoke].
  - apply ensureBrowserLaunched_live_browser; assumption.
  - destruct (getMcpClient_state st)
      as [(c & E) | (st0 & Hs & Hw & Htr & E)]; rewrite E; fields.
    + rewrite status. auto.
    + rewrite <- Hs, <- Hw in *.
      pose proof (ensureBrowserLaunched_live_browser st0 Hp Ht Hb Hl) as H.
      cbv zeta in H. destruct H as (H1 & H2 & H3 & H4 & H5).
      rewrite H5. repeat split; auto.
      destruct Htr as [-> | (c & ->)]; [reflexivity | apply status].
  - destruct (getPage_state st) as [E | E]; rewrite E; [auto|].
    apply ensureBrowserLaunched_live_browser; assumption.
Qed.

(** X9. While the stored browser reports connected (and a non-zero port is
    stored), no sequence of awaited calls to the public methods launches
    anything: the log gains no launch, the stored browser, the stored page
    and the stored port stay, and the driver's world is not touched.  Since
    only driver calls could change what the browser reports, the situation
    persists through the whole sequence. *)
Theorem connected_browser_is_never_relaunched
    (ms : list method) (st : State) (p : N) (b : Browser) :
  remoteDebuggingPort (self st) = Some p -> p <> 0%N ->
  browser (self st) = Some b ->
  browser_isConnected b (drv (world st)) = true ->
  let st' := invoke_all ms st in
  filter is_launch (trace st') = filter is_launch (trace st) /\
  browser (self st') = Some b /\
  page (self st') = page (self st) /\
  remoteDebuggingPort (self st') = Some p /\
  drv (world st') = drv (world st).
Proof.
  intros Hp Hnz Hb Hl. cbv zeta.
  assert (Ht : truthy p = true)
    by (unfold truthy; apply negb_true_iff, N.eqb_neq; assumption).
  clear Hnz. unfold invoke_all. revert st Hp Hb Hl.
  induction ms as [|m ms IH]; intros st Hp Hb Hl; cbn [fold_left]; [auto|].
  pose proof (invoke_live_browser m st Hp Ht Hb Hl) as H. cbv zeta in H.
  destruct H as (H1 & H2 & H3 & H4 & H5).
  rewrite <- H4 in Hl.
  destruct (IH _ H1 H2 Hl) as (J1 & J2 & J3 & J4 & J5).
  rewrite J1, J3, J5, H5, H3, H4. auto.
Qed.

Ltac quiet_tail :=
  first
    [ exists []; split; [symmetry; apply app_nil_r | constructor]
    | eexists; split;
      [ rewrite <- ?app_assoc; cbn [app]; reflexivity
      | repeat constructor ] ].

Lemma getFreePort_no_mcp (st : State) :
  exists u, trace (snd (getFreePort st)) = trace st ++ u /\
            Forall (fun ev => is_mcp ev = false) u.
Proof.
  unfold getFreePort. cbv zeta. destruct st as [me [o d m] t].
  go; quiet_tail.
Qed.

Lemma portStage_no_mcp (st : State) :
  exists u, trace (snd (portStage st)) = trace st ++ u /\
            Forall (fun ev => is_mcp ev = false) u.
Proof.
  unfold portStage. unfold_js. cbv zeta. fields.
  pose proof (getFreePort_no_mcp st) as G.
  destruct (remoteDebuggingPort (self st)) as [p|];
    [destruct (truthy p)|]; fields;
    try (destruct (getFreePort st) as [[q|e] st1]; exact G).
  exists []. split; [symmetry; apply app_nil_r | constructor].
Qed.

Lemma launchBrowser_no_mcp (port : N) (st : State) :
  exists u, trace (snd (launchBrowser port st)) = trace st ++ u /\
            Forall (fun ev => is_mcp ev = false) u.
Proof.
  unfold launchBrowser. cbv zeta. destruct st as [me [o d m] t].
  go; quiet_tail.
Qed.

Lemma browserStage_no_mcp (port : N) (st : State) :
  exists u, trace (snd (browserStage port st)) = trace st ++ u /\
            Forall (fun ev => is_mcp ev = false) u.
Proof.
  destruct (browser (self st)) as [b|] eqn:Hb;
    [destruct (browser_isConnected b (drv (world st))) eqn:Hc|].
  - rewrite (browserStage_skip _ _ Hb Hc). fields. quiet_tail.
  - rewrite (browserStage_dead _ _ Hb Hc).
    destruct (launchBrowser_no_mcp port
      (mkState (self st) (world st) (trace st ++ [EvIsConnected b])))
      as (u & E & Hu).
    fields. exists (EvIsConnected b :: u). split.
    + rewrite E, <- app_assoc. reflexivity.
    + constructor; [reflexivity | assumption].
  - rewrite (browserStage_absent _ _ Hb). apply launchBrowser_no_mcp.
Qed.

Lemma filter_quiet (f : event -> bool) (u : list event) :
  (forall ev, f ev = true -> is_mcp ev = true) ->
  Forall (fun ev => is_mcp ev = false) u -> filter f u = [].
Proof.
  intros Hf Hu. induction Hu as [|ev u Hev Hu IH]; [reflexivity|].
  cbn [filter]. destruct (f ev) eqn:E; [|assumption].
  apply Hf in E. congruence.
Qed.

Lemma register_is_mcp (ev : event) : is_register ev = true -> is_mcp ev = true.
Proof. destruct ev; cbn; congruence. Qed.

Lemma connect_is_mcp (ev : event) : is_connect ev = true -> is_mcp ev = true.
Proof. destruct ev; cbn; congruence. Qed.

Lemma clientStage_skip (port : N) (st : State) (c : McpClient) :
  mcpClient (self st) = Some c ->
  client_getStatus c (mcp (world st)) = "connected"%string ->
  clientStage port st =
    (Resolved tt,
     mkState (self st) (world st) (trace st ++ [EvGetStatus c])).
Proof.
  intros Hc Hs. unfold clientStage. unfold_js. fields.
  rewrite Hc. fields. rewrite Hs. reflexivity.
Qed.

Lemma ensureBrowserLaunched_live_client (st : State) (c : McpClient) :
  mcpClient (self st) = Some c ->
  client_getStatus c (mcp (world st)) = "connected"%string ->
  let st' := snd (ensureBrowserLaunched st) in
  mcpClient (self st') = Some c /\
  mcp (world st') = mcp (world st) /\
  filter is_register (trace st') = filter is_register (trace st) /\
  filter is_connect (trace st') = filter is_connect (trace st).
Proof.
  intros Hc Hs. cbv zeta. rewrite ensureBrowserLaunched_stages.
  pose proof (portStage_frame st) as F. cbv zeta in F.
  destruct (portStage_no_mcp st) as (u1 & E1 & Q1).
  destruct F as (_ & F2 & _ & _ & _ & F6 & _).
  assert (R1 : filter is_register (trace (snd (portStage st)))
               = filter is_register (trace st))
    by (rewrite E1, filter_app, (filter_quiet _ register_is_mcp Q1);
        apply app_nil_r).
  assert (K1 : filter is_connect (trace (snd (portStage st)))
               = filter is_connect (trace st))
    by (rewrite E1, filter_app, (filter_quiet _ connect_is_mcp Q1);
        apply app_nil_r).
  destruct (portStage st) as [[port|e] st1]; fields;
    [|rewrite F2; auto].
  rewrite <- F2 in Hc. rewrite <- F6 in Hs. rewrite <- F6, <- R1, <- K1.
  clear F2 F6 R1 K1 E1 Q1 u1.
  pose proof (browserStage_frame port st1) as B. cbv zeta in B.
  destruct (browserStage_no_mcp port st1) as (u2 & E2 & Q2).
  destruct B as (_ & B2 & _ & _ & B5 & _).
  assert (R2 : filter is_register (trace (snd (browserStage port st1)))
               = filter is_register (trace st1))
    by (rewrite E2, filter_app, (filter_quiet _ register_is_mcp Q2);
        apply app_nil_r).
  assert (K2 : filter is_connect (trace (snd (browserStage port st1)))
               = filter is_connect (trace st1))
    by (rewrite E2, filter_app, (filter_quiet _ connect_is_mcp Q2);
        apply app_nil_r).
  destruct (browserStage port st1) as [[[]|e] st2]; fields;
    [|rewrite B2; auto].
  rewrite <- B2 in Hc. rewrite <- B5 in Hs. rewrite <- B5, <- R2, <- K2.
  rewrite (clientStage_skip port st2 Hc Hs). fields.
  rewrite !filter_app. cbn [filter is_register is_connect].
  rewrite !app_nil_r. auto.
Qed.

Lemma getMcpClient_fast (st : State) (c : McpClient) :
  mcpClient (self st) = Some c ->
  client_getStatus c (mcp (world st)) = "connected"%string ->
  getMcpClient st =
    (Resolved c, mkState (self st) (world st) (trace st ++ [EvGetStatus c])).
Proof.
  intros Hc Hs. unfold getMcpClient. unfold_js. cbv zeta. fields.
  rewrite Hc. fields. rewrite Hs. reflexivity.
Qed.

Lemma invoke_live_client (m : method) (st : State) (c : McpClient) :
  mcpClient (self st) = Some c ->
  client_getStatus c (mcp (world st)) = "connected"%string ->
  let st' := invoke m st in
  mcpClient (self st') = Some c /\
  mcp (world st') = mcp (world st) /\
  filter is_register (trace st') = filter is_register (trace st) /\
  filter is_connect (trace st') = filter is_connect (trace st).
Proof.
  intros Hc Hs. cbv zeta. destruct m; cbn [invoke].
  - apply ensureBrowserLaunched_live_client; assumption.
  - rewrite (getMcpClient_fast st Hc Hs). fields.
    rewrite !filter_app. cbn [filter is_register is_connect].
    rewrite !app_nil_r. auto.
  - destruct (getPage_state st) as [E | E]; rewrite E; [auto|].
    apply ensureBrowserLaunched_live_client; assumption.
Qed.

(** X10. While the stored client reports ['connected'], no sequence of
    awaited calls to the public methods registers a server or calls
    [connect]: the log gains no registration and no connect, the stored
    client stays and the client manager's world is not touched, whatever
    happens to the port and browser stages meanwhile. *)
Theorem connected_client_is_never_reconnected
    (ms : list method) (st : State) (c : McpClient) :
  mcpClient (self st) = Some c ->
  client_getStatus c (mcp (world st)) = "connected"%string ->
  let st' := invoke_all ms st in
  filter is_register (trace st') = filter is_register (trace st) /\
  filter is_connect (trace st') = filter is_connect (trace st) /\
  mcpClient (self st') = Some c /\
  mcp (world st') = mcp (world st).
Proof.
  intros Hc Hs. cbv zeta. unfold invoke_all. revert st Hc Hs.
  induction ms as [|m ms IH]; intros st Hc Hs; cbn [fold_left]; [auto|].
  pose proof (invoke_live_client m st Hc Hs) as H. cbv zeta in H.
  destruct H as (H1 & H2 & H3 & H4).
  rewrite <- H2 in Hs.
  destruct (IH _ H1 Hs) as (J1 & J2 & J3 & J4).
  rewrite J1, J2, J4, H3, H4, H2. auto.
Qed.

(** ** A registered client is not registered again *)

Lemma connectMcp_found
    (port : N) (st : State) (m : McpClientManager) (c : McpClient) :
  getMcpClientManager (config (self st)) = Some m ->
  manager_getClient m (clientName port) (mcp (world st)) = Some c ->
  let st' := snd (connectMcp port st) in
  filter is_register (trace st') = filter is_register (trace st) /\
  (mcp (world st') = mcp (world st) \/
   exists r, client_connect c (mcp (world st)) = (r, mcp (world st'))).
Proof.
  intros Hm Hc. cbv zeta. unfold connectMcp. cbv zeta.
  destruct st as [me [o d w] t]. unfold_js. fields. rewrite Hm.
  go; try congruence;
    rewrite !filter_app; cbn [filter is_register]; rewrite !app_nil_r;
    (split; [reflexivity|]); auto;
    injection Hc as <-; right; eexists; eassumption.
Qed.

Section Registered.

Variable m : McpClientManager.
Variable p : N.

(** No [connect] removes the client registered for port [p]. *)
Hypothesis connect_keeps_registration :
  forall c w r w',
    client_connect c w = (r, w') ->
    manager_getClient m (clientName p) w <> None ->
    manager_getClient m (clientName p) w' <> None.

Lemma clientStage_registered (st : State) :
  registered_for m p st ->
  registered_for m p (snd (clientStage p st)) /\
  filter is_register (trace (snd (clientStage p st)))
    = filter is_register (trace st).
Proof.
  unfold registered_for. intros (Hp & Hm & Hr).
  pose proof (clientStage_frame p st) as C. cbv zeta in C.
  destruct C as (C1 & _ & _ & C4 & _).
  rewrite C1, C4.
  destruct (clientStage_cases p st)
    as [(c & _ & _ & E) | (st0 & Hs & Hw & Htr & E)]; rewrite E.
  - fields. rewrite filter_app. cbn [filter is_register]. rewrite app_nil_r.
    auto.
  - destruct (manager_getClient m (clientName p) (mcp (world st)))
      as [c|] eqn:Hc; [|contradiction].
    pose proof Hm as Hm0. rewrite <- Hs in Hm0. rewrite <- Hw in Hc.
    pose proof (connectMcp_found p st0 Hm0 Hc) as F. cbv zeta in F.
    destruct F as [F1 F2]. rewrite F1.
    split; [split; [assumption | split; [assumption|]]|].
    + destruct F2 as [F2 | (r & F2)]; [rewrite F2, Hc; discriminate|].
      eapply connect_keeps_registration; [exact F2|].
      rewrite Hc. discriminate.
    + destruct Htr as [Htr | (c' & Htr)]; rewrite Htr; [reflexivity|].
      rewrite filter_app. cbn [filter is_register]. apply app_nil_r.
Qed.

Lemma ensureBrowserLaunched_registered (st : State) :
  p <> 0%N -> registered_for m p st ->
  registered_for m p (snd (ensureBrowserLaunched st)) /\
  filter is_register (trace (snd (ensureBrowserLaunched st)))
    = filter is_register (trace st).
Proof.
  intros Hnz R. pose proof R as (Hp & Hm & Hr).
  assert (Ht : truthy p = true)
    by (unfold truthy; apply negb_true_iff, N.eqb_neq; assumption).
  rewrite ensureBrowserLaunched_stages, (portStage_stored _ Hp Ht).
  pose proof (browserStage_frame p st) as B. cbv zeta in B.
  destruct (browserStage_no_mcp p st) as (u & E & Q).
  destruct B as (B1 & _ & B3 & _ & B5 & _).
  assert (R2 : registered_for m p (snd (browserStage p st)))
    by (unfold registered_for; rewrite B1, B3, B5; auto).
  assert (F2 : filter is_register (trace (snd (browserStage p st)))
               = filter is_register (trace st))
    by (rewrite E, filter_app, (filter_quiet _ register_is_mcp Q);
        apply app_nil_r).
  destruct (browserStage p st) as [[[]|e] st2]; fields; [|auto].
  destruct (clientStage_registered R2) as [R3 F3].
  rewrite F3, F2. auto.
Qed.

Lemma invoke_registered (c : method) (st : State) :
  p <> 0%N -> registered_for m p st ->
  registered_for m p (invoke c st) /\
  filter is_register (trace (invoke c st)) = filter is_register (trace st).
Proof.
  intros Hnz R. destruct c; cbn [invoke].
  - apply ensureBrowserLaunched_registered; assumption.
  - assert (status : forall st0,
      self st0 = self st -> world st0 = world st ->
      (trace st0 = trace st \/
       exists c, trace st0 = trace st ++ [EvGetStatus c]) ->
      registered_for m p st0 /\
      filter is_register (trace st0) = filter is_register (trace st)).
    { intros st0 Hs Hw Htr. unfold registered_for. rewrite Hs, Hw.
      split; [exact R|].
      destruct Htr as [-> | (c & ->)]; [reflexivity|].
      rewrite filter_app. cbn [filter is_register]. apply app_nil_r. }
    destruct (getMcpClient_state st)
      as [(c & E) | (st0 & Hs & Hw & Htr & E)]; rewrite E.
    + apply status; auto. right. exists c. reflexivity.
    + destruct (status st0 Hs Hw Htr) as [R0 F0].
      destruct (ensureBrowserLaunched_registered Hnz R0) as [R1 F1].
      rewrite F1, F0. auto.
  - destruct (getPage_state st) as [E | E]; rewrite E; [auto|].
    apply ensureBrowserLaunched_registered; assumption.
Qed.

(** X11. Let a non-zero port [p] be stored, and let the client manager know
    a client under the name for [p].  If no [connect] makes the manager
    forget that client, then no sequence of awaited calls to the public
    methods registers a server again, whether or not the client is
    connected and whether or not the calls succeed. *)
Theorem registered_client_is_not_registered_again
    (ms : list method) (st : State) :
  p <> 0%N ->
  remoteDebuggingPort (self st) = Some p ->
  getMcpClientManager (config (self st)) = Some m ->
  manager_getClient m (clientName p) (mcp (world st)) <> None ->
  filter is_register (trace (invoke_all ms st))
    = filter is_register (trace st).
Proof.
  intros Hnz Hp Hm Hr.
  assert (R : registered_for m p st) by (unfold registered_for; auto).
  clear Hp Hm Hr. unfold invoke_all. revert st R.
  induction ms as [|c ms IH]; intros st R; cbn [fold_left]; [reflexivity|].
  destruct (invoke_registered c Hnz R) as [R' F].
  rewrite (IH _ R'), F. reflexivity.
Qed.

End Registered.

End MoreFacts.

(** * Properties of the browser tools *)

Section ToolFacts.

Context {P : Platform} {T : ToolPlatform}.

Local Open Scope list_scope.

Ltac unfold_tool :=
  unfold try_catch, callTool, callToolArgs, bind, ret, throw, emit, this,
    assign, read_mcp, await_mcp in *.

Ltac fields :=
  cbn [self world trace os drv mcp config mcpClient browser page
       remoteDebuggingPort fst snd map] in *.

Lemma bind_run {A B} (m : M A) (k : A -> M B) (st : State) :
  bind m k st =
    match m st with
    | (Resolved a, st') => k a st'
    | (Rejected e, st') => (Rejected e, st')
    end.
Proof. reflexivity. Qed.

(** ** The overlay helpers *)

(** X12. [removeOverlay] and [updateBorderOverlay] reject only when
    [getMcpClient] rejects.  Once it has resolved, each makes one
    [evaluate_script] call with its script and resolves whatever that call
    does: a rejected call is swallowed and leaves a ["Failed to ..."] line in
    the debug log. *)
Theorem overlay_helpers_swallow_tool_failures
    (active capturing : bool) (st : State) :
  match getMcpClient st with
  | (Rejected e, st1) =>
      removeOverlay st = (Rejected e, st1) /\
      updateBorderOverlay active capturing st = (Rejected e, st1)
  | (Resolved c, st1) =>
      let call (script : string) :=
        EvCallTool c "evaluate_script" [("function", script)] in
      let result (script : string) :=
        fst (client_callTool c "evaluate_script" [("function", script)]
                             (mcp (world st1))) in
      let border :=
        updateBorderOverlay_script
          (JSON_stringify_options active capturing) in
      fst (removeOverlay st) = Resolved tt /\
      trace (snd (removeOverlay st)) =
        match result removeOverlay_script with
        | Resolved _ => trace st1 ++ [call removeOverlay_script]
        | Rejected err =>
            trace st1 ++
              [call removeOverlay_script;
               EvLog ("Failed to remove overlay: " ++ String_of_exn err)]
        end /\
      fst (updateBorderOverlay active capturing st) = Resolved tt /\
      trace (snd (updateBorderOverlay active capturing st)) =
        match result border with
        | Resolved _ => trace st1 ++ [call border]
        | Rejected err =>
            trace st1 ++
              [call border;
               EvLog ("Failed to update border overlay: "
                      ++ String_of_exn err)]
        end
  end.
Proof.
  unfold removeOverlay, updateBorderOverlay. cbv zeta. rewrite !bind_run.
  destruct (getMcpClient st) as [[c|e] st1]; [|split; reflexivity].
  unfold_tool. fields.
  repeat split;
    match goal with
    | |- context [client_callTool ?a ?b ?c ?d] =>
        destruct (client_callTool a b c d) as [[res|err] w']
    end; fields; rewrite <- ?app_assoc; reflexivity.
Qed.

(** X13. [showOverlay] asks for the client twice and rejects only when one of
    the two [getMcpClient] calls rejects.  Once both have resolved it makes
    one [evaluate_script] call, on the client of the second call and with the
    script built around [JSON.stringify(message)], and resolves whatever that
    call does; a rejected call is swallowed and logged. *)
Theorem showOverlay_outcome (message : string) (st : State) :
  match getMcpClient st with
  | (Rejected e, st1) => showOverlay message st = (Rejected e, st1)
  | (Resolved _, st1) =>
      match getMcpClient st1 with
      | (Rejected e, st2) => showOverlay message st = (Rejected e, st2)
      | (Resolved c, st2) =>
          let script := showOverlay_script (JSON_stringify message) in
          let call := EvCallTool c "evaluate_script" [("function", script)] in
          fst (showOverlay message st) = Resolved tt /\
          trace (snd (showOverlay message st)) =
            match fst (client_callTool c "evaluate_script"
                         [("function", script)] (mcp (world st2))) with
            | Resolved _ => trace st2 ++ [call]
            | Rejected err =>
                trace st2 ++
                  [call;
                   EvLog ("Failed to show overlay: " ++ String_of_exn err)]
            end
      end
  end.
Proof.
  unfold showOverlay. cbv zeta. rewrite bind_run.
  destruct (getMcpClient st) as [[c0|e] st1]; [|reflexivity].
  rewrite bind_run.
  destruct (getMcpClient st1) as [[c|e] st2]; [|reflexivity].
  unfold_tool. fields.
  destruct (client_callTool _ _ _ _) as [[res|err] w']; fields;
    rewrite <- ?app_assoc; split; reflexivity.
Qed.

(** ** [takeSnapshot] *)

Lemma append_empty (s : string) : (s ++ "")%string = s.
Proof.
  induction s as [|a s IH]; [reflexivity|]. cbn. rewrite IH. reflexivity.
Qed.

Lemma append_assoc (a b c : string) :
  ((a ++ b) ++ c)%string = (a ++ (b ++ c))%string.
Proof.
  induction a as [|x a IH]; [reflexivity|]. cbn. rewrite IH. reflexivity.
Qed.

Lemma concat_empty_cons (x : string) (xs : list string) :
  String.concat "" (x :: xs) = (x ++ String.concat "" xs)%string.
Proof.
  destruct xs as [|y ys]; cbn [String.concat].
  - symmetry. apply append_empty.
  - reflexivity.
Qed.

Lemma joinTexts_cons (item : ContentItem) (rest : list ContentItem) :
  joinTexts (item :: rest) =
    ((if String.eqb (item_type item) "text"
      then match item_text item with Some s => s | None => "" end
      else "") ++ joinTexts rest)%string.
Proof.
  unfold joinTexts. cbn [filter].
  destruct (String.eqb (item_type item) "text"); [|reflexivity].
  cbn [map]. apply concat_empty_cons.
Qed.

Lemma joinTexts_app (a b : list ContentItem) :
  joinTexts (a ++ b) = (joinTexts a ++ joinTexts b)%string.
Proof.
  induction a as [|item a IH]; [reflexivity|].
  cbn [app]. rewrite !joinTexts_cons, IH, append_assoc. reflexivity.
Qed.

(** X14. The output of [takeSnapshot] is the texts of the result's content
    items of type ['text'], in order and with nothing between them: items of
    another type and text items without text add nothing, the text of two
    content lists put together is the two texts put together, and a result
    without content gives the empty output.  A rejected tool call rejects
    [takeSnapshot]. *)
Theorem takeSnapshot_output_is_the_joined_text
    (verbose : option bool) (st : State) :
  snapshotOutput None = ""%string /\
  snapshotOutput (Some []) = ""%string /\
  (forall item rest,
     snapshotOutput (Some (item :: rest)) =
       ((if String.eqb (item_type item) "text"
         then match item_text item with Some s => s | None => "" end
         else "") ++ snapshotOutput (Some rest))%string) /\
  (forall a b,
     snapshotOutput (Some (a ++ b)) =
       (snapshotOutput (Some a) ++ snapshotOutput (Some b))%string) /\
  match getMcpClient st with
  | (Rejected e, st1) => takeSnapshot verbose st = (Rejected e, st1)
  | (Resolved c, st1) =>
      let v := match verbose with Some b => b | None => false end in
      match fst (client_callToolArgs c "take_snapshot"
                   [("verbose", ArgBoolean v)] (mcp (world st1))) with
      | Resolved result =>
          fst (takeSnapshot verbose st) =
            Resolved (mkToolResult
                        (Some (snapshotOutput (result_content result)))
                        None None)
      | Rejected e => fst (takeSnapshot verbose st) = Rejected e
      end
  end.
Proof.
  repeat split.
  - intros item rest. apply joinTexts_cons.
  - intros a b. apply joinTexts_app.
  - unfold takeSnapshot. cbv zeta. rewrite bind_run.
    destruct (getMcpClient st) as [[c|e] st1]; [|reflexivity].
    unfold_tool. fields.
    destruct (client_callToolArgs _ _ _ _) as [[res|err] w']; reflexivity.
Qed.

(** ** The tools on a connected client *)

(** X15. With a stored client that reports ['connected'], [waitFor], [drag]
    and [handleDialog] ask for the status once and make exactly one tool
    call, with the tool name and arguments of the source; they resolve with
    their message when the call resolves and reject with the call's error
    when it rejects.  [openWebBrowser] makes no tool call at all.  None of
    them changes a field of the manager or anything outside the client
    manager's world. *)
Theorem mcp_tools_on_a_connected_client
    (st : State) (c : McpClient) (text fromUid toUid : string)
    (action : DialogAction) (promptText : option string) :
  mcpClient (self st) = Some c ->
  client_getStatus c (mcp (world st)) = "connected"%string ->
  let after (call : event) (w' : McpW) : State :=
    mkState (self st) (mkWorld (os (world st)) (drv (world st)) w')
            (trace st ++ [EvGetStatus c; call]) in
  let settle (r : outcome CallToolResult) (message : string)
      : outcome ToolResult :=
    match r with
    | Resolved _ => Resolved (mkToolResult (Some message) None None)
    | Rejected e => Rejected e
    end in
  let prompt : JsArg :=
    match promptText with
    | Some s => ArgString s
    | None => ArgUndefined
    end in
  waitFor text st =
    (let (r, w') := client_callTool c "wait_for" [("text", text)]
                                    (mcp (world st)) in
     (settle r ("Waited for text " ++ dquote ++ text ++ dquote)%string,
      after (EvCallTool c "wait_for" [("text", text)]) w')) /\
  drag fromUid toUid st =
    (let (r, w') := client_callTool c "drag"
                      [("from_uid", fromUid); ("to_uid", toUid)]
                      (mcp (world st)) in
     (settle r "Dragged element",
      after (EvCallTool c "drag" [("from_uid", fromUid); ("to_uid", toUid)])
            w')) /\
  handleDialog action promptText st =
    (let (r, w') := client_callToolArgs c "handle_dialog"
                      [("action", ArgString (DialogAction_toString action));
                       ("promptText", prompt)]
                      (mcp (world st)) in
     (settle r ("Dialog " ++ DialogAction_toString action ++ "ed")%string,
      after (EvCallTool c "handle_dialog"
               [("action", DialogAction_toString action);
                ("promptText", JsArg_toString prompt)])
            w')) /\
  openWebBrowser st =
    (Resolved (mkToolResult (Some "Browser opened"%string) None None),
     mkState (self st) (world st) (trace st ++ [EvGetStatus c])).
Proof.
  intros Hc Hs. cbv zeta.
  unfold waitFor, drag, handleDialog, openWebBrowser.
  rewrite !bind_run, (getMcpClient_fast st Hc Hs).
  unfold_tool. fields. repeat split.
  - destruct (client_callTool _ _ _ _) as [[res|e] w']; fields;
      rewrite <- ?app_assoc; reflexivity.
  - destruct (client_callTool _ _ _ _) as [[res|e] w']; fields;
      rewrite <- ?app_assoc; reflexivity.
  - destruct (client_callToolArgs _ _ _ _) as [[res|e] w']; fields;
      rewrite <- ?app_assoc; reflexivity.
Qed.

End ToolFacts.

(** ** The further properties in the simulated world *)

Lemma ensureConnection_ready_noop_witness :
  ensureConnection Sim.st_ready =
    (Resolved tt,
     mkState (self Sim.st_ready) (world Sim.st_ready)
             (trace Sim.st_ready
                ++ [@EvIsConnected Sim.platform 0;
                    @EvGetStatus Sim.platform "chrome-devtools-54213"])).
Proof.
  apply (@ensureConnection_ready_noop Sim.platform Sim.st_ready 54213%N);
    reflexivity.
Defined.

Lemma ensureConnection_resolved_ready_witness :
  (exists p,
     remoteDebuggingPort (self (snd (ensureConnection Sim.st0))) = Some p /\
     p <> 0%N) /\
  browser (self (snd (ensureConnection Sim.st0))) <> None /\
  mcpClient (self (snd (ensureConnection Sim.st0))) <> None.
Proof.
  exact (@ensureConnection_resolved_ready Sim.platform Sim.st0 eq_refl).
Defined.

Lemma browser_failure_skips_client_stage_witness :
  fst (ensureConnection Sim.st_launch_fails)
    = Rejected (Error "Executable not found") /\
  calls is_mcp (trace (snd (ensureConnection Sim.st_launch_fails)))
    = calls is_mcp (trace Sim.st_launch_fails) /\
  mcp (world (snd (ensureConnection Sim.st_launch_fails)))
    = mcp (world Sim.st_launch_fails) /\
  mcpClient (self (snd (ensureConnection Sim.st_launch_fails)))
    = mcpClient (self Sim.st_launch_fails).
Proof.
  exact (@browser_failure_skips_client_stage Sim.platform Sim.st_launch_fails
           54213%N (Error "Executable not found") eq_refl eq_refl).
Defined.

Lemma fields_in_dependency_order_witness :
  (forall p, remoteDebuggingPort (self SimCases.st_pageless) = Some p ->
             p <> 0%N) /\
  (browser (self SimCases.st_pageless) <> None ->
   remoteDebuggingPort (self SimCases.st_pageless) <> None) /\
  (mcpClient (self SimCases.st_pageless) <> None ->
   browser (self SimCases.st_pageless) <> None) /\
  (page (self SimCases.st_pageless) <> None ->
   browser (self SimCases.st_pageless) <> None).
Proof.
  exact (@fields_in_dependency_order Sim.platform SimCases.st_pageless
           (reach_ensureConnection (reach_new _ _))).
Defined.

(** The browser has died: the calls relaunch, and keep the port. *)
Lemma stored_port_is_kept_witness :
  remoteDebuggingPort
    (self (invoke_all [GetPage; EnsureConnection; GetMcpClient] Sim.st_dead))
    = Some 54213%N /\
  allocations
    (trace (invoke_all [GetPage; EnsureConnection; GetMcpClient] Sim.st_dead))
    = allocations (trace Sim.st_dead).
Proof.
  apply (@stored_port_is_kept Sim.platform
           [GetPage; EnsureConnection; GetMcpClient] Sim.st_dead 54213%N);
    [vm_compute; reflexivity | discriminate].
Defined.

Lemma log_names_one_port_witness :
  Forall (bound_to 54213) (trace Sim.st_ready).
Proof.
  exact (@log_names_one_port Sim.platform Sim.st_ready
           (reach_getPage (reach_new Sim.cfg Sim.good_world))).
Defined.

Lemma getPage_needs_a_relaunch_witness :
  fst (getPage SimCases.st_pageless)
    = Rejected (Error "Browser page not available") /\
  page (self (snd (getPage SimCases.st_pageless))) = None /\
  filter is_launch (trace (snd (getPage SimCases.st_pageless)))
    = filter is_launch (trace SimCases.st_pageless).
Proof.
  assert (Hp : remoteDebuggingPort (self SimCases.st_pageless)
               = Some 54213%N) by (vm_compute; reflexivity).
  assert (Hb : browser (self SimCases.st_pageless) = Some 0)
    by (vm_compute; reflexivity).
  assert (Hl : @browser_isConnected Sim.platform 0
                 (drv (world SimCases.st_pageless)) = true)
    by (vm_compute; reflexivity).
  assert (Hpg : page (self SimCases.st_pageless) = None)
    by (vm_compute; reflexivity).
  assert (Hnz : 54213%N <> 0%N) by discriminate.
  destruct (@getPage_needs_a_relaunch Sim.platform SimCases.st_pageless
              54213%N 0 Hp Hnz Hb Hl Hpg)
    as (H1 & H3 & _ & _ & _ & H7).
  split; [rewrite H1; vm_compute; reflexivity | split; [exact H3 | exact H7]].
Defined.

Lemma connected_browser_is_never_relaunched_witness :
  filter is_launch
    (trace (invoke_all [EnsureConnection; GetPage; GetMcpClient]
                       SimCases.st_pageless))
    = filter is_launch (trace SimCases.st_pageless) /\
  browser (self (invoke_all [EnsureConnection; GetPage; GetMcpClient]
                            SimCases.st_pageless)) = Some 0 /\
  page (self (invoke_all [EnsureConnection; GetPage; GetMcpClient]
                         SimCases.st_pageless)) = None.
Proof.
  assert (Hp : remoteDebuggingPort (self SimCases.st_pageless)
               = Some 54213%N) by (vm_compute; reflexivity).
  assert (Hb : browser (self SimCases.st_pageless) = Some 0)
    by (vm_compute; reflexivity).
  assert (Hl : @browser_isConnected Sim.platform 0
                 (drv (world SimCases.st_pageless)) = true)
    by (vm_compute; reflexivity).
  assert (Hnz : 54213%N <> 0%N) by discriminate.
  destruct (@connected_browser_is_never_relaunched Sim.platform
              [EnsureConnection; GetPage; GetMcpClient]
              SimCases.st_pageless 54213%N 0 Hp Hnz Hb Hl)
    as (H1 & H2 & H3 & _).
  split; [exact H1 | split; [exact H2 |]].
  rewrite H3. vm_compute. reflexivity.
Defined.

(** The browser has died: the calls relaunch it, and leave the connected
    client alone. *)
Lemma connected_client_is_never_reconnected_witness :
  filter is_register
    (trace (invoke_all [GetPage; EnsureConnection; GetMcpClient] Sim.st_dead))
    = filter is_register (trace Sim.st_dead) /\
  filter is_connect
    (trace (invoke_all [GetPage; EnsureConnection; GetMcpClient] Sim.st_dead))
    = filter is_connect (trace Sim.st_dead).
Proof.
  destruct (@connected_client_is_never_reconnected Sim.platform
              [GetPage; EnsureConnection; GetMcpClient] Sim.st_dead
              "chrome-devtools-54213"%string)
    as (H1 & H2 & _); [vm_compute; reflexivity .. |].
  split; assumption.
Defined.

Lemma Sim_connect_keeps_registration (name : string) :
  forall (c : @McpClient Sim.platform) (w : @McpW Sim.platform)
         (r : outcome unit) (w' : @McpW Sim.platform),
    @client_connect Sim.platform c w = (r, w') ->
    @manager_getClient Sim.platform tt name w <> None ->
    @manager_getClient Sim.platform tt name w' <> None.
Proof.
  intros c w r w'. cbn [client_connect manager_getClient Sim.platform].
  unfold Sim.connect, Sim.getClient.
  destruct (Sim.connect_error w); intros H; inversion H; subst; auto.
Qed.

(** The client is registered but refuses to connect: every call tries to
    connect again and none registers again. *)
Lemma registered_client_is_not_registered_again_witness :
  filter is_register
    (trace (invoke_all [EnsureConnection; GetMcpClient; GetPage]
                       SimCases.st_refused_once))
    = filter is_register (trace SimCases.st_refused_once).
Proof.
  apply (@registered_client_is_not_registered_again Sim.platform tt 54213%N
           (Sim_connect_keeps_registration (clientName 54213))
           [EnsureConnection; GetMcpClient; GetPage]
           SimCases.st_refused_once).
  - discriminate.
  - vm_compute. reflexivity.
  - vm_compute. reflexivity.
  - vm_compute. discriminate.
Defined.

(** The same ready manager in a world whose tool calls resolve and in one
    whose tool calls are rejected. *)
Lemma mcp_tools_on_a_connected_client_witness :
  fst (@waitFor Sim.platform "Done" Sim.st_ready)
    = Resolved (mkToolResult
                  (Some ("Waited for text " ++ dquote ++ "Done" ++ dquote)%string)
                  None None) /\
  fst (@waitFor SimBroken.platform "Done" SimCases.st_broken_ready)
    = Rejected (Error "Target closed").
Proof.
  split.
  - destruct (@mcp_tools_on_a_connected_client Sim.platform SimTools.tools
                Sim.st_ready "chrome-devtools-54213"%string
                "Done"%string "a"%string "b"%string accept None)
      as [H _]; [vm_compute; reflexivity .. |].
    rewrite H. vm_compute. reflexivity.
  - destruct (@mcp_tools_on_a_connected_client SimBroken.platform
                SimBroken.tools SimCases.st_broken_ready
                "chrome-devtools-54213"%string
                "Done"%string "a"%string "b"%string accept None)
      as [H _]; [vm_compute; reflexivity .. |].
    rewrite H. vm_compute. reflexivity.
Defined.

(** * Properties of the page tools *)

Section PageToolFacts.

Context {P : Platform} {T : ToolPlatform} {G : PagePlatform}.

Ltac unfold_page :=
  unfold try_catch, bind, ret, throw, read_drv, await_drv in *.

Ltac fields :=
  cbn [self world trace os drv mcp fst snd] in *.

Ltac split_match :=
  match goal with
  | |- context [match ?x with _ => _ end] =>
      lazymatch x with
      | context [match _ with _ => _ end] => fail
      | _ => destruct x eqn:?
      end
  end.

Ltac settle :=
  first [ left; reflexivity
        | right; left; reflexivity
        | right; eexists; reflexivity
        | right; right; eexists; reflexivity ].

(** X16. [typeTextAt], [dragAndDrop] and [evaluateScript] reject only when
    their first [getPage] rejects, and then with its error.  Once the page
    is there they always resolve, and the result is fixed by the first thing
    that fails inside.  [typeTextAt]: a rejected [clickAt] gives
    ["Failed to type at x, y: "] followed by the message of that rejection
    (a click that only returned an [error] result is ignored); otherwise the
    keystrokes (Control+A and Backspace if asked, the text, Enter if asked)
    are made in this order, and the first rejected one gives the same line
    with its message; with none rejected the ["Typed"] message comes out.
    [dragAndDrop]: a rejected [getViewportSize] gives ["Failed to drag: "]
    with its message, a missing viewport ["Viewport not available"];
    otherwise move, down, move in 5 steps and up are made on the scaled
    coordinates, and the first rejected one gives ["Failed to drag: "] with
    its message, none the ["Dragged"] message.  [evaluateScript]: the wrapped
    script is evaluated once; a rejection gives
    ["Script execution failed: "] with its message, a value its JSON text
    if it is an object and its string otherwise. *)
Theorem caught_page_tools_resolve_once_the_page_is_there
    (x y destX destY : number) (text script : string)
    (pressEnter clearBeforeTyping : option bool) (st : State) :
  match getPage st with
  | (Rejected e, st1) =>
      typeTextAt x y text pressEnter clearBeforeTyping st = (Rejected e, st1) /\
      dragAndDrop x y destX destY st = (Rejected e, st1) /\
      evaluateScript script st = (Rejected e, st1)
  | (Resolved page, st1) =>
      let enter := match pressEnter with Some b => b | None => false end in
      let clear :=
        match clearBeforeTyping with Some b => b | None => false end in
      let keystrokes :=
        ((if clear
          then [keyboard_press page "Control+A";
                keyboard_press page "Backspace"]
          else [])
         ++ [keyboard_type page text]
         ++ (if enter then [keyboard_press page "Enter"] else []))%list in
      let type_failed (e : exn) :=
        error_result
          ("Failed to type at " ++ Number_template x ++ ", "
           ++ Number_template y ++ ": " ++ message_of e)%string in
      let drag_failed (e : exn) :=
        error_result ("Failed to drag: " ++ message_of e)%string in
      fst (typeTextAt x y text pressEnter clearBeforeTyping st) =
        Resolved
          match clickAt x y st1 with
          | (Rejected e, _) => type_failed e
          | (Resolved _, st2) =>
              match first_failure keystrokes (drv (world st2)) with
              | Some e => type_failed e
              | None =>
                  output_result
                    ("Typed " ++ dquote ++ text ++ dquote ++ " at "
                     ++ Number_template x ++ ", " ++ Number_template y)%string
              end
          end /\
      fst (dragAndDrop x y destX destY st) =
        Resolved
          match getViewportSize st1 with
          | (Rejected e, _) => drag_failed e
          | (Resolved None, _) => error_result "Viewport not available"
          | (Resolved (Some viewport), st2) =>
              match
                first_failure
                  [mouse_move page (scale x (width viewport))
                              (scale y (height viewport)) None;
                   mouse_down page;
                   mouse_move page (scale destX (width viewport))
                              (scale destY (height viewport)) (Some 5);
                   mouse_up page]
                  (drv (world st2))
              with
              | Some e => drag_failed e
              | None =>
                  output_result
                    ("Dragged from " ++ Number_template x ++ ","
                     ++ Number_template y ++ " to " ++ Number_template destX
                     ++ "," ++ Number_template destY)%string
              end
          end /\
      fst (evaluateScript script st) =
        Resolved
          match fst (page_evaluate page
                       ("(function() { return " ++ script ++ "; })()")%string
                       (drv (world st1))) with
          | Rejected e =>
              error_result
                ("Script execution failed: " ++ message_of e)%string
          | Resolved value =>
              output_result
                (if typeof_object value then JSON_stringify_value value
                 else String_value value)
          end
  end.
Proof.
  unfold typeTextAt, dragAndDrop, evaluateScript. cbv zeta.
  rewrite !bind_run.
  destruct (getPage st) as [[page|e] st1];
    [|split; [reflexivity | split; reflexivity]].
  split; [|split].
  - unfold_page. fields.
    destruct (clickAt x y st1) as [[r|e] st2]; fields; [|reflexivity].
    destruct clearBeforeTyping as [[]|]; destruct pressEnter as [[]|];
      cbn [first_failure app]; repeat (split_match; fields); reflexivity.
  - unfold_page. fields.
    destruct (getViewportSize st1) as [[[vp|]|e] st2]; fields;
      [|reflexivity|reflexivity].
    cbn [first_failure]. repeat (split_match; fields); reflexivity.
  - unfold_page. fields.
    destruct (page_evaluate _ _ _) as [[v|e] d]; reflexivity.
Qed.

(** X17. [clickAt] rejects only when its [showOverlay] rejects or when the
    [getPage] after it rejects, and then with that error.  Once both have
    resolved it always resolves: with the ["Clicked at"] message, with
    ["Viewport not available"], or with an [error] result carrying the
    message of the failing viewport query or click. *)
Theorem clickAt_resolves_once_overlay_and_page_are_there
    (x y : number) (st : State) :
  match showOverlay ("Clicking at " ++ Number_template x ++ ", "
                     ++ Number_template y) st with
  | (Rejected e, st1) => clickAt x y st = (Rejected e, st1)
  | (Resolved _, st1) =>
      match getPage st1 with
      | (Rejected e, st2) => clickAt x y st = (Rejected e, st2)
      | (Resolved _, _) =>
          (exists ax ay,
             fst (clickAt x y st) =
               Resolved (output_result
                           ("Clicked at " ++ Number_template x ++ ", "
                            ++ Number_template y ++ " (scaled to "
                            ++ Number_toFixed0 ax ++ ", "
                            ++ Number_toFixed0 ay ++ ")"))) \/
          fst (clickAt x y st) =
            Resolved (error_result "Viewport not available") \/
          exists m,
            fst (clickAt x y st) =
              Resolved (error_result
                          ("Failed to click at " ++ Number_template x ++ ", "
                           ++ Number_template y ++ ": " ++ m))
      end
  end.
Proof.
  unfold clickAt. rewrite bind_run.
  destruct (showOverlay _ st) as [[[]|e] st1]; [|reflexivity].
  rewrite bind_run.
  destruct (getPage st1) as [[page|e] st2]; [|reflexivity].
  unfold_page. fields.
  destruct (getViewportSize st2) as [[[vp|]|e] st3]; fields;
    [|settle|settle].
  destruct (mouse_click _ _ _ _) as [[[]|e] d]; fields;
    [left; eexists; eexists; reflexivity | settle].
Qed.

End PageToolFacts.

(** * Two calls in flight *)

Section SuspendedFacts.

Context {P : Platform}.

(** Cutting [getFreePort] at the return of its promise, and
    [ensureBrowserLaunched] at its first [await], changes nothing when the
    two halves run one right after the other. *)
Lemma getFreePort_in_two_halves (st : State) :
  getFreePort st = (err <- getFreePort_called ;; getFreePort_settled err) st.
Proof.
  unfold getFreePort, getFreePort_called, getFreePort_settled.
  unfold bind, emit, step_os. cbn [self world trace os drv mcp].
  destruct (net_listen 0 (os (world st))) as [[e|] o]; reflexivity.
Qed.

Lemma ensureBrowserLaunched_in_two_halves (st : State) :
  ensureBrowserLaunched st =
    (s <- ensureBrowserLaunched_called ;; ensureBrowserLaunched_resumed s) st.
Proof.
  unfold ensureBrowserLaunched, portStage, ensureBrowserLaunched_called,
    ensureBrowserLaunched_resumed.
  cbv zeta. rewrite !bind_run. unfold this. cbn [fst snd].
  destruct (remoteDebuggingPort (self st)) as [p|];
    [destruct (truthy p)|]; try reflexivity;
    rewrite ?bind_run, getFreePort_in_two_halves, ?bind_run;
    (destruct (getFreePort_called st) as [[err|e] st1]; [|reflexivity]);
    unfold ret at 2; rewrite ?bind_run;
    (destruct (getFreePort_settled err st1) as [[q|e] st2]; reflexivity).
Qed.

End SuspendedFacts.

